(** * unversion: prompt store and usage observer

    A shallow embedding of [src/unversion/store.py],
    [src/unversion/observer.py] and the commands of [src/unversion/cli.py]
    that validate, list and export, and the properties their
    specification states about them.

    Conventions of the embedding.
    - A Python [str] is a [string]: a sequence of one-byte characters (the
      UTF-8 encoding of the text).  Braces are ASCII, and UTF-8 is
      self-synchronising and order preserving, so substring replacement,
      brace scanning and lexicographic comparison on the bytes agree with
      the same operations on code points.  A [str] may hold a lone
      surrogate, which UTF-8 does not encode: it stands in the sequence
      in the three-byte form that starts with byte 237 and goes on with a
      byte from 160 to 191, which no UTF-8 text contains, and
      [str.encode] raises on it.  The strings handed to SQLite as
      parameters of a statement are taken to be text, without lone
      surrogates.
    - A value read from a JSON file is a [json]; Python does not check the
      dataclass annotations, so the fields of a loaded [Prompt] hold
      whatever the file holds.
    - A call returns or raises: [outcome].  State is passed explicitly,
      and what is handed to the logger is collected.
    - A finite double is the rational it denotes.  Python's arithmetic
      on floats rounds each result to the nearest double ([round64]);
      what SQLite computes ([AVG]) and the order in which it returns rows
      that compare equal are left to the [engine] of the database. *)

From Stdlib Require Import ZArith QArith Qabs Ascii String List Lia Permutation Sorted.
From stdpp Require Import base option list strings gmap sorting.

Local Open Scope Z_scope.

Set Warnings "-register-all".

(** ** Python values and calls *)

Module Py.

(** Exceptions the modelled code can meet.  [KeyError] carries the missing
    key; the others only their class. *)
Inductive exn : Type :=
| KeyError (k : string)
| ValueError
| IndexError
| AttributeError
| JSONDecodeError
| IntegrityError
| OperationalError
| OverflowError
| OSError
| TypeError
| UnicodeEncodeError
| DatabaseError.

(** How a call ends.  [Unmodelled] marks a use of [str.format] outside the
    part of it that is modelled (see [Str.format]); nothing else produces
    it. *)
Inductive outcome (A : Type) : Type :=
| Returns (a : A)
| Raises (e : exn)
| Unmodelled.
Arguments Returns {A} a.
Arguments Raises {A} e.
Arguments Unmodelled {A}.

Definition and_then {A B} (o : outcome A) (k : A -> outcome B) : outcome B :=
  match o with
  | Returns a => k a
  | Raises e => Raises e
  | Unmodelled => Unmodelled
  end.

(** [except KeyError] catches exactly this class. *)
Definition is_KeyError (e : exn) : bool :=
  match e with KeyError _ => true | _ => false end.

(** What [json.load] / [json.loads] produce.  [JDict] lists the items of
    the dict in insertion order. *)
Inductive json : Type :=
| JNull
| JBool (b : bool)
| JNum (q : Q)
| JStr (s : string)
| JList (l : list json)
| JDict (d : list (string * json)).

(** Truth value of an object: [None], [False], zero, and the empty string,
    list and dict are false. *)
Definition truthy (v : json) : bool :=
  match v with
  | JNull => false
  | JBool b => b
  | JNum q => negb (Qeq_bool q 0)
  | JStr s => negb (String.eqb s "")
  | JList l => match l with [] => false | _ => true end
  | JDict d => match d with [] => false | _ => true end
  end.

(** [d.items()] of an association list and [d.get(key, default)]. *)
Fixpoint assoc {A} (k : string) (d : list (string * A)) : option A :=
  match d with
  | [] => None
  | (k', v) :: d' => if String.eqb k k' then Some v else assoc k d'
  end.

Definition dict_get {A} (d : list (string * A)) (k : string) (default : A) : A :=
  match assoc k d with
  | Some v => v
  | None => default
  end.

(** [v.get(key, default)] on an arbitrary object: only a dict has [get]. *)
Definition get (v : json) (k : string) (default : json) : outcome json :=
  match v with
  | JDict d => Returns (dict_get d k default)
  | _ => Raises AttributeError
  end.

(** [v.items()] on an arbitrary object. *)
Definition items (v : json) : outcome (list (string * json)) :=
  match v with
  | JDict d => Returns d
  | _ => Raises AttributeError
  end.

End Py.

Export Py.

(** ** Python string operations used by [Prompt.format] *)

Module Str.

Definition lbrace : ascii := "{"%char.
Definition rbrace : ascii := "}"%char.

Definition braced (k : string) : string :=
  String lbrace (k +:+ String rbrace "").

(** [s.startswith(p)]. *)
Fixpoint starts_with (p s : string) : bool :=
  match p, s with
  | EmptyString, _ => true
  | String a p', String b s' => if Ascii.eqb a b then starts_with p' s' else false
  | String _ _, EmptyString => false
  end.

(** [s.replace(old, new)] for a non-empty [old]: the occurrences of [old]
    are found from the left and do not overlap.  [skip] counts the
    characters of a matched occurrence still to be dropped. *)
Fixpoint replace_from (old new : string) (skip : nat) (s : string) : string :=
  match s with
  | EmptyString => EmptyString
  | String c s' =>
      match skip with
      | S k => replace_from old new k s'
      | O =>
          if starts_with old s
          then new +:+ replace_from old new (String.length old - 1) s'
          else String c (replace_from old new 0 s')
      end
  end.

(** With an empty [old], Python puts [new] before every character and at
    the end. *)
Fixpoint intersperse (new s : string) : string :=
  match s with
  | EmptyString => new
  | String c s' => new +:+ String c (intersperse new s')
  end.

Definition replace (old new s : string) : string :=
  match old with
  | EmptyString => intersperse new s
  | String _ _ => replace_from old new 0 s
  end.

(** *** [str.format] with keyword arguments

    The markup scanner of CPython (MarkupIterator_next and parse_field in
    Objects/stringlib/unicode_format.h), called with keyword arguments
    only.  Literal text is copied, a doubled brace stands for one brace, a
    single closing brace or an unfinished field is a [ValueError], and a
    field [{name}] is looked up: an empty or numeric name indexes the
    (empty) tuple of positional arguments, any other name is a key of
    [kwargs].

    A keyword value is represented by its [str()], which is also what an
    empty format specification renders.  Fields that do more than name an
    argument (a conversion [!r], a format specification [:spec], an
    attribute [.a] or an index [[i]]) depend on the class of the value;
    they are outside the model, as are names written with non-ASCII
    digits: [Unmodelled]. *)

Definition emit (c : ascii) (o : outcome string) : outcome string :=
  match o with
  | Returns s => Returns (String c s)
  | _ => o
  end.

Definition emit_string (v : string) (o : outcome string) : outcome string :=
  match o with
  | Returns s => Returns (v +:+ s)
  | _ => o
  end.

Definition is_digit (c : ascii) : bool :=
  (48 <=? nat_of_ascii c)%nat && (nat_of_ascii c <=? 57)%nat.

Definition is_ascii (c : ascii) : bool := (nat_of_ascii c <? 128)%nat.

Fixpoint forall_chars (p : ascii -> bool) (s : string) : bool :=
  match s with
  | EmptyString => true
  | String c s' => p c && forall_chars p s'
  end.

Fixpoint exists_char (p : ascii -> bool) (s : string) : bool :=
  match s with
  | EmptyString => false
  | String c s' => p c || exists_char p s'
  end.

(** Value of a string of ASCII digits (get_integer). *)
Fixpoint decimal (acc : Z) (s : string) : Z :=
  match s with
  | EmptyString => acc
  | String c s' => decimal (10 * acc + (Z.of_nat (nat_of_ascii c) - 48)) s'
  end.

Definition PY_SSIZE_T_MAX : Z := 2 ^ 63 - 1.

Inductive lookup_outcome : Type :=
| Found (v : string)
| LookupRaises (e : exn)
| LookupUnmodelled.

(** get_field_object: split the name, then index [args] (always empty
    here) or look the key up in [kwargs]. *)
Definition get_field (kwargs : list (string * string)) (name : string) : lookup_outcome :=
  if exists_char (Ascii.eqb "."%char) name then LookupUnmodelled
  else match name with
  | EmptyString => LookupRaises IndexError
  | String _ _ =>
      if forall_chars is_digit name then
        if decimal 0 name <=? PY_SSIZE_T_MAX then LookupRaises IndexError
        else LookupRaises ValueError
      else if forall_chars (fun c => is_digit c || negb (is_ascii c)) name
      then LookupUnmodelled
      else match assoc name kwargs with
      | Some v => Found v
      | None => LookupRaises (KeyError name)
      end
  end.

(** [field] is [None] while scanning literal text and [Some name] inside a
    replacement field, with the part of its name read so far. *)
Fixpoint vformat (kwargs : list (string * string)) (field : option string)
    (s : string) : outcome string :=
  match field with
  | None =>
      match s with
      | EmptyString => Returns EmptyString
      | String c s' =>
          if Ascii.eqb c lbrace then
            match s' with
            | EmptyString => Raises ValueError
            | String c2 s'' =>
                if Ascii.eqb c2 lbrace then emit lbrace (vformat kwargs None s'')
                else vformat kwargs (Some EmptyString) s'
            end
          else if Ascii.eqb c rbrace then
            match s' with
            | EmptyString => Raises ValueError
            | String c2 s'' =>
                if Ascii.eqb c2 rbrace then emit rbrace (vformat kwargs None s'')
                else Raises ValueError
            end
          else emit c (vformat kwargs None s')
      end
  | Some name =>
      match s with
      | EmptyString => Raises ValueError
      | String c s' =>
          if Ascii.eqb c rbrace then
            match get_field kwargs name with
            | Found v => emit_string v (vformat kwargs None s')
            | LookupRaises e => Raises e
            | LookupUnmodelled => Unmodelled
            end
          else if Ascii.eqb c lbrace then Raises ValueError
          else if Ascii.eqb c "["%char || Ascii.eqb c ":"%char || Ascii.eqb c "!"%char
          then Unmodelled
          else vformat kwargs (Some (name +:+ String c EmptyString)) s'
      end
  end.

Definition format (s : string) (kwargs : list (string * string)) : outcome string :=
  vformat kwargs None s.

(** *** [str.encode]

    A lone surrogate (U+D800 to U+DFFF) is the only thing UTF-8 cannot
    encode.  In the sequence of bytes it is the byte 237 followed by a
    byte from 160 to 191; in the encoding of any other character byte 237
    is followed by a byte below 160. *)
Fixpoint has_surrogate (s : string) : bool :=
  match s with
  | String c (String c2 _ as s') =>
      ((nat_of_ascii c =? 237)%nat && (160 <=? nat_of_ascii c2)%nat
       && (nat_of_ascii c2 <=? 191)%nat)
      || has_surrogate s'
  | _ => false
  end.

End Str.

(** ** Effects: state, exceptions and the logger

    A computation reads and writes a state [S], ends as an [outcome], and
    hands records to the module's logger.  A record keeps its level and
    the constant part of its message. *)

Module Eff.

Inductive level : Type := DEBUG | INFO | WARNING | ERROR.

Definition log_record : Type := level * string.

Definition M (S A : Type) : Type := S -> outcome A * S * list log_record.

Definition ret {S A} (a : A) : M S A := fun s => (Returns a, s, []).

Definition raise {S A} (e : exn) : M S A := fun s => (Raises e, s, []).

Definition lift {S A} (o : outcome A) : M S A := fun s => (o, s, []).

Definition bind {S A B} (m : M S A) (k : A -> M S B) : M S B :=
  fun s =>
    match m s with
    | (Returns a, s1, l1) =>
        match k a s1 with
        | (r, s2, l2) => (r, s2, l1 ++ l2)
        end
    | (Raises e, s1, l1) => (Raises e, s1, l1)
    | (Unmodelled, s1, l1) => (Unmodelled, s1, l1)
    end.

Definition get_state {S} : M S S := fun s => (Returns s, s, []).

Definition modify {S} (f : S -> S) : M S unit := fun s => (Returns tt, f s, []).

Definition log {S} (lvl : level) (msg : string) : M S unit :=
  fun s => (Returns tt, s, [(lvl, msg)]).

(** [try: body except Exception as e: handler e]. *)
Definition try_except {S A} (body : M S A) (handler : exn -> M S A) : M S A :=
  fun s =>
    match body s with
    | (Raises e, s1, l1) =>
        match handler e s1 with
        | (r, s2, l2) => (r, s2, l1 ++ l2)
        end
    | other => other
    end.

Definition result_of {S A} (x : outcome A * S * list log_record) : outcome A := x.1.1.
Definition state_of {S A} (x : outcome A * S * list log_record) : S := x.1.2.
Definition logs_of {S A} (x : outcome A * S * list log_record) : list log_record := x.2.

End Eff.

Export Eff.

Declare Scope eff_scope.
Delimit Scope eff_scope with eff.
Notation "'let*' x ':=' m 'in' k" := (Eff.bind m (fun x => k))
  (at level 10, x name, m at level 100, k at level 200, only parsing) : eff_scope.

(** ** store.py *)

(** [@dataclass class Prompt]. *)
Record Prompt : Type := mkPrompt {
  key : string;
  text : json;
  variables : json;
  source : json;
  notes : json
}.

(** The partial format of [Prompt.format]:
    [for key, value in kwargs.items(): result = result.replace(...)]. *)
Definition replace_each (kwargs : list (string * string)) (s : string) : string :=
  fold_left (fun result kv => Str.replace (Str.braced kv.1) kv.2 result) kwargs s.

(** [text.format] on an arbitrary object: only a [str] has [format]. *)
Definition str_format (v : json) (kwargs : list (string * string)) : outcome string :=
  match v with
  | JStr s => Str.format s kwargs
  | _ => Raises AttributeError
  end.

(** [Prompt.format(self, **kwargs)].  [kwargs] lists the keyword arguments
    in the order of the call, each value by its [str()]. *)
Definition Prompt_format {S} (self : Prompt) (kwargs : list (string * string)) : M S json :=
  match kwargs with
  | [] => ret (text self)
  | _ :: _ =>
      match str_format (text self) kwargs with
      | Returns r => ret (JStr r)
      | Raises (KeyError k) =>
          (let* _ := log WARNING "Missing format key" in
           match text self with
           | JStr s => ret (JStr (replace_each kwargs s))
           | _ => raise AttributeError
           end)%eff
      | Raises e => raise e
      | Unmodelled => lift Unmodelled
      end
  end.

(** What a prompts file is to [_load]: not there, there but [open] fails,
    there but [json.load] fails, or a JSON document; or a path on which
    [Path.exists] itself raises [OSError] (the name is too long, a
    directory on the way may not be searched). *)
Inductive file : Type :=
| Absent
| Unreadable
| Malformed
| Document (data : json)
| Inaccessible.

Definition filesystem : Type := string -> file.

(** [class PromptStore]. *)
Record PromptStore : Type := mkPromptStore {
  _path : option string;
  _prompts : gmap string Prompt;
  _version : json
}.

Definition set_path (p : option string) (st : PromptStore) : PromptStore :=
  mkPromptStore p (_prompts st) (_version st).
Definition set_prompts (m : gmap string Prompt) (st : PromptStore) : PromptStore :=
  mkPromptStore (_path st) m (_version st).
Definition set_version (v : json) (st : PromptStore) : PromptStore :=
  mkPromptStore (_path st) (_prompts st) v.

Module PromptStore_.

Local Open Scope eff_scope.

(** [with open(self._path) as f: data = json.load(f)]. *)
Definition read_json (f : file) : M PromptStore json :=
  match f with
  | Absent | Unreadable | Inaccessible => raise OSError
  | Malformed => raise JSONDecodeError
  | Document data => ret data
  end.

(** [Prompt(key=key, text=prompt_data.get("text", ""), ...)]. *)
Definition make_prompt (k : string) (prompt_data : json) : outcome Prompt :=
  and_then (Py.get prompt_data "text" (JStr "")) (fun t =>
  and_then (Py.get prompt_data "variables" (JList [])) (fun vs =>
  and_then (Py.get prompt_data "source" (JStr "bundled")) (fun src =>
  and_then (Py.get prompt_data "notes" (JStr "")) (fun n =>
  Returns (mkPrompt k t vs src n))))).

(** [for key, prompt_data in prompts.items(): self._prompts[key] = Prompt(...)]. *)
Fixpoint load_items (its : list (string * json)) : M PromptStore unit :=
  match its with
  | [] => ret tt
  | (k, prompt_data) :: rest =>
      let* p := lift (make_prompt k prompt_data) in
      let* _ := modify (fun st => set_prompts (<[k := p]> (_prompts st)) st) in
      load_items rest
  end.

(** The body of the [try] of [_load]. *)
Definition load_body (f : file) : M PromptStore unit :=
  let* data := read_json f in
  let* v := lift (Py.get data "version" (JStr "1.0")) in
  let* _ := modify (set_version v) in
  let* prompts := lift (Py.get data "prompts" (JDict [])) in
  let* _ := modify (set_prompts ∅) in
  let* its := lift (Py.items prompts) in
  let* _ := load_items its in
  log INFO "Loaded prompts".

(** [PromptStore._load].  [self._path.exists()] stands before the [try]:
    what it raises reaches the caller. *)
Definition _load (fs : filesystem) : M PromptStore unit :=
  let* st := get_state in
  match _path st with
  | None => ret tt
  | Some p =>
      match fs p with
      | Inaccessible => raise OSError
      | Absent => log WARNING "Prompts file not found"
      | f => try_except (load_body f) (fun e => log ERROR "Failed to load prompts")
      end
  end.

(** [PromptStore.init]. *)
Definition init (fs : filesystem) (p : string) : M PromptStore unit :=
  let* _ := modify (set_path (Some p)) in
  _load fs.

(** [PromptStore.reload]. *)
Definition reload (fs : filesystem) : M PromptStore unit := _load fs.

(** [PromptStore.__init__] without and with a path.  When [init] raises
    there is no new store; [new] is then the store as the exception left
    it, and is not used. *)
Definition empty : PromptStore := mkPromptStore None ∅ (JStr "1.0").

Definition new (fs : filesystem) (p : option string) : PromptStore :=
  match p with
  | None => empty
  | Some p => state_of (init fs p empty)
  end.

(** [get], [has], [__len__], [list_keys]. *)
Definition get (st : PromptStore) (k : string) : option Prompt := _prompts st !! k.

Definition has (st : PromptStore) (k : string) : bool :=
  bool_decide (is_Some (_prompts st !! k)).

Definition len (st : PromptStore) : nat := size (_prompts st).

Definition keys (st : PromptStore) : list string := (map_to_list (_prompts st)).*1.

Definition list_keys (st : PromptStore) : list string :=
  merge_sort String.le (keys st).

End PromptStore_.

(** ** [hashlib.sha256]

    SHA-256 of FIPS 180-4 on 32-bit words held in [Z], with the wrap-around
    written out. *)

Module SHA256.

Definition w32 (x : Z) : Z := x mod 2 ^ 32.

Definition add32 (x y : Z) : Z := w32 (x + y).

Definition rotr (n x : Z) : Z :=
  Z.lor (Z.shiftr x n) (w32 (Z.shiftl x (32 - n))).

Definition Ch (x y z : Z) : Z :=
  Z.lxor (Z.land x y) (Z.land (Z.lxor x 0xffffffff) z).

Definition Maj (x y z : Z) : Z :=
  Z.lxor (Z.lxor (Z.land x y) (Z.land x z)) (Z.land y z).

Definition Sigma0 (x : Z) : Z := Z.lxor (Z.lxor (rotr 2 x) (rotr 13 x)) (rotr 22 x).
Definition Sigma1 (x : Z) : Z := Z.lxor (Z.lxor (rotr 6 x) (rotr 11 x)) (rotr 25 x).
Definition sigma0 (x : Z) : Z := Z.lxor (Z.lxor (rotr 7 x) (rotr 18 x)) (Z.shiftr x 3).
Definition sigma1 (x : Z) : Z := Z.lxor (Z.lxor (rotr 17 x) (rotr 19 x)) (Z.shiftr x 10).

(** The round constants: the first 32 bits of the fractional parts of the
    cube roots of the first 64 primes. *)
Definition K : list Z :=
  [1116352408; 1899447441; 3049323471; 3921009573; 961987163; 1508970993;
   2453635748; 2870763221; 3624381080; 310598401; 607225278; 1426881987;
   1925078388; 2162078206; 2614888103; 3248222580; 3835390401; 4022224774;
   264347078; 604807628; 770255983; 1249150122; 1555081692; 1996064986;
   2554220882; 2821834349; 2952996808; 3210313671; 3336571891; 3584528711;
   113926993; 338241895; 666307205; 773529912; 1294757372; 1396182291;
   1695183700; 1986661051; 2177026350; 2456956037; 2730485921; 2820302411;
   3259730800; 3345764771; 3516065817; 3600352804; 4094571909; 275423344;
   430227734; 506948616; 659060556; 883997877; 958139571; 1322822218;
   1537002063; 1747873779; 1955562222; 2024104815; 2227730452; 2361852424;
   2428436474; 2756734187; 3204031479; 3329325298].

(** The eight working variables, and the hash value. *)
Record state : Type := mkState {
  ha : Z; hb : Z; hc : Z; hd : Z; he : Z; hf : Z; hg : Z; hh : Z
}.

Definition H0 : state :=
  mkState 1779033703 3144134277 1013904242 2773480762
          1359893119 2600822924 528734635 1541459225.

(** Padding: a one bit, zeros up to 56 modulo 64 bytes, and the length in
    bits as a big-endian 64-bit integer. *)
Definition be_bytes (n : nat) (x : Z) : list Z :=
  map (fun i => (Z.shiftr x (8 * Z.of_nat (n - 1 - i))) mod 256) (seq 0 n).

Definition pad (msg : list Z) : list Z :=
  let len := Z.of_nat (length msg) in
  let zeros := Z.to_nat ((55 - len) mod 64) in
  msg ++ [0x80] ++ repeat 0 zeros ++ be_bytes 8 (8 * len).

Fixpoint be_words (fuel : nat) (bs : list Z) : list Z :=
  match fuel, bs with
  | S fuel', b0 :: b1 :: b2 :: b3 :: bs' =>
      (Z.shiftl b0 24 + Z.shiftl b1 16 + Z.shiftl b2 8 + b3) :: be_words fuel' bs'
  | _, _ => []
  end.

(** The message schedule: sixteen words of the block, then 48 derived
    ones. *)
Fixpoint extend (n : nat) (w : list Z) : list Z :=
  match n with
  | O => w
  | S n' =>
      let t := length w in
      let wt := add32 (add32 (sigma1 (nth (t - 2) w 0)) (nth (t - 7) w 0))
                      (add32 (sigma0 (nth (t - 15) w 0)) (nth (t - 16) w 0)) in
      extend n' (w ++ [wt])
  end.

Definition round (s : state) (kw : Z * Z) : state :=
  let T1 := add32 (add32 (add32 (hh s) (Sigma1 (he s))) (Ch (he s) (hf s) (hg s)))
                  (add32 kw.1 kw.2) in
  let T2 := add32 (Sigma0 (ha s)) (Maj (ha s) (hb s) (hc s)) in
  mkState (add32 T1 T2) (ha s) (hb s) (hc s) (add32 (hd s) T1) (he s) (hf s) (hg s).

Definition compress (h : state) (block : list Z) : state :=
  let w := extend 48 (be_words 16 block) in
  let s := fold_left round (combine K w) h in
  mkState (add32 (ha h) (ha s)) (add32 (hb h) (hb s)) (add32 (hc h) (hc s))
          (add32 (hd h) (hd s)) (add32 (he h) (he s)) (add32 (hf h) (hf s))
          (add32 (hg h) (hg s)) (add32 (hh h) (hh s)).

Fixpoint blocks (fuel : nat) (h : state) (bs : list Z) : state :=
  match fuel with
  | O => h
  | S fuel' =>
      match bs with
      | [] => h
      | _ => blocks fuel' (compress h (firstn 64 bs)) (skipn 64 bs)
      end
  end.

Definition digest (msg : list Z) : state :=
  let p := pad msg in
  blocks (length p) H0 p.

(** [hexdigest()]: lower-case hexadecimal, eight digits a word. *)
Definition hex_digit (x : Z) : ascii :=
  let d := x mod 16 in
  if d <? 10 then ascii_of_nat (Z.to_nat (48 + d)) else ascii_of_nat (Z.to_nat (87 + d)).

Definition hex8 (x : Z) (rest : string) : string :=
  String (hex_digit (Z.shiftr x 28)) (String (hex_digit (Z.shiftr x 24))
  (String (hex_digit (Z.shiftr x 20)) (String (hex_digit (Z.shiftr x 16))
  (String (hex_digit (Z.shiftr x 12)) (String (hex_digit (Z.shiftr x 8))
  (String (hex_digit (Z.shiftr x 4)) (String (hex_digit x) rest))))))).

Definition hex_of_state (s : state) : string :=
  hex8 (ha s) (hex8 (hb s) (hex8 (hc s) (hex8 (hd s)
  (hex8 (he s) (hex8 (hf s) (hex8 (hg s) (hex8 (hh s) EmptyString))))))).

(** [text.encode()]: the bytes of the string. *)
Fixpoint encode (s : string) : list Z :=
  match s with
  | EmptyString => []
  | String c s' => Z.of_nat (nat_of_ascii c) :: encode s'
  end.

Definition hexdigest (text : string) : string := hex_of_state (digest (encode text)).

End SHA256.

(** ** Python floats

    [round64 q] is the double nearest to the rational [q], ties going to
    the even mantissa: 53 bits of mantissa, and exponents down to that of
    the subnormal numbers.  Python rounds the exact quotient of two
    [int]s and the exact product of two floats in this way.  Numbers
    beyond the largest double (about 1.8e308) are not met and are rounded
    as if the exponent had no upper limit. *)

Module Float64.

(** [2 ^ e <= n / d]. *)
Definition at_least (n d e : Z) : bool :=
  if 0 <=? e then d * 2 ^ e <=? n else d <=? n * 2 ^ (- e).

(** The [e] with [2 ^ e <= n / d < 2 ^ (e + 1)], for positive [n] and
    [d]. *)
Definition exponent (n d : Z) : Z :=
  let e0 := Z.log2 n - Z.log2 d in
  if at_least n d e0 then e0 else e0 - 1.

(** The integer nearest to [n / d], the even one of two that are as
    near. *)
Definition div_nearest_even (n d : Z) : Z :=
  let q := n / d in
  let r := n mod d in
  if 2 * r <? d then q
  else if d <? 2 * r then q + 1
  else if Z.even q then q else q + 1.

(** The double nearest to [n / d], for positive [n] and [d]: a multiple
    of [2 ^ p], where [p] is 52 below the exponent, and not below
    -1074. *)
Definition nearest (n d : Z) : Q :=
  let p := Z.max (exponent n d - 52) (-1074) in
  if 0 <=? p then inject_Z (div_nearest_even n (d * 2 ^ p) * 2 ^ p)
  else Qmake (div_nearest_even (n * 2 ^ (- p)) d) (Z.to_pos (2 ^ (- p))).

Definition round64 (q : Q) : Q :=
  match Qnum q with
  | Z0 => 0%Q
  | Zpos n => nearest (Zpos n) (Zpos (Qden q))
  | Zneg n => Qopp (nearest (Zpos n) (Zpos (Qden q)))
  end.

End Float64.

(** ** observer.py *)

Module Observer.

Local Open Scope eff_scope.

(** [@dataclass class UsageLog]. *)
Record UsageLog : Type := mkUsageLog {
  id : string;
  timestamp : string;
  prompt_key : string;
  prompt_hash : string;
  stage : string;
  model : option string;
  session_id : option string;
  variables_used : json;
  success : bool;
  latency_ms : Q;
  notes : option string
}.

(** A row of the table [usage]; [None] is NULL.  [V] is the type of the
    column [variables_used]: the stored text in the table, the parsed value
    in the dicts [get_recent] returns. *)
Record row (V : Type) : Type := mkRow {
  r_id : string;
  r_timestamp : string;
  r_prompt_key : string;
  r_prompt_hash : string;
  r_stage : string;
  r_model : option string;
  r_session_id : option string;
  r_variables_used : V;
  r_success : Z;
  r_latency_ms : Q;
  r_notes : option string
}.
Arguments mkRow {V}.
Arguments r_id {V}.
Arguments r_timestamp {V}.
Arguments r_prompt_key {V}.
Arguments r_prompt_hash {V}.
Arguments r_stage {V}.
Arguments r_model {V}.
Arguments r_session_id {V}.
Arguments r_variables_used {V}.
Arguments r_success {V}.
Arguments r_latency_ms {V}.
Arguments r_notes {V}.

Definition stored_row : Type := row (option string).

(** What [json.dumps] does with a value: the dict of [variables_used] may
    hold values that are not JSON, which it refuses with a [TypeError]. *)
Inductive serialised : Type :=
| Text (s : string)
| Refused (e : exn).

(** The dicts [get_stats] and [get_top_prompts] return. *)
Record recent_row : Type := mkRecent {
  rr_timestamp : string;
  rr_stage : string;
  rr_model : option string;
  rr_success : Z
}.

Record stats : Type := mkStats {
  s_prompt_key : string;
  total_usage : nat;
  success_rate : Q;
  avg_latency_ms : Q;
  by_stage : list (string * nat);
  recent : list recent_row
}.

Record top_prompt : Type := mkTop {
  t_prompt_key : string;
  usage_count : nat;
  success_count : nat;
  avg_latency : option Q;
  last_used : option string
}.

(** *** What SQL leaves open

    [ORDER BY timestamp DESC], and [ORDER BY count DESC] on pairs and
    aggregates, say how rows that differ in the key are ordered; rows
    that are equal in it come in an order that depends on the indexes and
    on the plan SQLite chooses for the statement.  [AVG] on a REAL column
    adds and divides doubles, and its rounding depends on the order of the
    rows and on the version of the library.  An [engine] is one way of
    doing both: for each statement, it returns the rows it is given in
    an order that is sorted, and an average that is positive when the
    numbers are.  (Numbers whose sum is beyond the largest double are not
    met.) *)

(** The statements of the queries, with their parameters. *)
Inductive statement : Type :=
| AvgLatency (prompt_key : string)
| StageCounts (prompt_key : string)
| RecentOfKey (prompt_key : string)
| SelectRecent (prompt_key stage session_id : option string) (limit : Z)
| TopPrompts (limit : Z).

Definition newer_first {V} (r1 r2 : row V) : Prop :=
  String.le (r_timestamp r2) (r_timestamp r1).

#[global] Instance newer_first_dec {V} : RelDecision (@newer_first V) :=
  fun r1 r2 => decide (String.le (r_timestamp r2) (r_timestamp r1)).

Definition more_first (a b : string * nat) : Prop := (b.2 <= a.2)%nat.

#[global] Instance more_first_dec : RelDecision more_first :=
  fun a b => decide (b.2 <= a.2)%nat.

Definition most_used_first (a b : top_prompt) : Prop :=
  (usage_count b <= usage_count a)%nat.

#[global] Instance most_used_first_dec : RelDecision most_used_first :=
  fun a b => decide (usage_count b <= usage_count a)%nat.

Record engine : Type := mkEngine {
  order_rows : statement -> list stored_row -> list stored_row;
  order_rows_sorts :
    forall q rows,
      order_rows q rows ≡ₚ rows /\ StronglySorted newer_first (order_rows q rows);
  order_stages : statement -> list (string * nat) -> list (string * nat);
  order_stages_sorts :
    forall q l, order_stages q l ≡ₚ l /\ StronglySorted more_first (order_stages q l);
  order_groups : statement -> list top_prompt -> list top_prompt;
  order_groups_sorts :
    forall q l,
      order_groups q l ≡ₚ l /\ StronglySorted most_used_first (order_groups q l);
  avg : statement -> list Q -> Q;
  avg_positive :
    forall q l, l <> [] -> Forall (fun x => 0 < x)%Q l -> (0 < avg q l)%Q
}.

(** [class UsageStore]: the path and the database file behind it, with
    the library that reads it.  [db_ok = false] stands for a database
    that cannot be used, where [sqlite3] raises [db_error]: an
    [OperationalError] when the file cannot be opened or is locked, a
    [DatabaseError] when it is not a database.  [db_opens] tells where:
    a file that cannot be opened fails [sqlite3.connect]; one that opens
    fails the first statement executed on the connection. *)
Record UsageStore : Type := mkUsageStore {
  db_path : string;
  db_ok : bool;
  db_opens : bool;
  db_error : exn;
  sqlite : engine;
  usage : list stored_row
}.

Definition set_usage (t : list stored_row) (st : UsageStore) : UsageStore :=
  mkUsageStore (db_path st) (db_ok st) (db_opens st) (db_error st) (sqlite st) t.

(** *** The SQL of the queries *)

(** [LIMIT n]: a negative [n] is no limit. *)
Definition sql_limit {A} (n : Z) (l : list A) : list A :=
  if n <? 0 then l else take (Z.to_nat n) l.

(** An [int] bound to a parameter of a statement must fit the 64-bit
    INTEGER of SQLite. *)
Definition sqlite_int (n : Z) : outcome Z :=
  if (- 2 ^ 63 <=? n) && (n <=? 2 ^ 63 - 1) then Returns n else Raises OverflowError.

(** [COUNT( * )]. *)
Definition sql_count {A} (l : list A) : nat := length l.

(** [AVG(x)]: NULL over no rows. *)
Definition sql_avg (eng : engine) (q : statement) (l : list Q) : option Q :=
  match l with
  | [] => None
  | _ => Some (avg eng q l)
  end.

(** [MAX(x)] on text: NULL over no rows. *)
Definition string_max (a b : string) : string :=
  if decide (String.le a b) then b else a.

Definition sql_max (l : list string) : option string :=
  match l with
  | [] => None
  | x :: l' => Some (fold_left string_max l' x)
  end.

(** The distinct values of a column, for [GROUP BY]. *)
Definition distinct (l : list string) : list string := remove_dups l.

Definition with_key {V} (k : string) (r : row V) : bool :=
  String.eqb (r_prompt_key r) k.

Definition succeeded {V} (r : row V) : bool := r_success r =? 1.

Definition measured {V} (r : row V) : bool :=
  if Qlt_le_dec 0 (r_latency_ms r) then true else false.

(** [x or 0] on the result of an aggregate. *)
Definition or_zero (x : option Q) : Q :=
  match x with
  | Some q => if Qeq_bool q 0 then 0%Q else q
  | None => 0%Q
  end.

(** [success_count / total * 100] on two [int]s: the quotient is a float,
    and so is its product with 100. *)
Definition percent (part total : nat) : Q :=
  Float64.round64
    (Float64.round64 (inject_Z (Z.of_nat part) / inject_Z (Z.of_nat total)) * 100)%Q.

(** [entry["variables_used"] or "{}"]: NULL and the empty text are false. *)
Definition variables_text (r : row (option string)) : string :=
  match r_variables_used r with
  | Some s => if String.eqb s "" then "{}" else s
  | None => "{}"
  end.

(** *** [UsageStore] *)

Section UsageStore.

(** [json.dumps] and [json.loads] of the standard library.  [json.dumps]
    raises on a value that cannot be serialised. *)
Variable json_dumps : json -> serialised.
Variable json_loads : string -> option json.

(** [sqlite3.connect(self.db_path)]. *)
Definition open_db : M UsageStore unit :=
  let* st := get_state in
  if db_ok st || db_opens st then ret tt else raise (db_error st).

(** [with sqlite3.connect(self.db_path) as conn] and the first
    [conn.execute], which reads the table. *)
Definition connect : M UsageStore (list stored_row) :=
  let* st := get_state in
  if db_ok st then ret (usage st) else raise (db_error st).

(** [UsageStore.log]: the arguments of the statement are computed after
    the connection is made and before the statement is executed; [id] is
    the primary key. *)
Definition log_entry (entry : UsageLog) : M UsageStore unit :=
  let* _ := open_db in
  let* text := lift (match json_dumps (variables_used entry) with
                     | Text s => Returns s
                     | Refused e => Raises e
                     end) in
  let* rows := connect in
  let r := mkRow (id entry) (timestamp entry) (prompt_key entry) (prompt_hash entry)
             (stage entry) (model entry) (session_id entry)
             (Some text)
             (if success entry then 1 else 0) (latency_ms entry) (notes entry) in
  if existsb (fun r' => String.eqb (r_id r') (id entry)) rows
  then raise IntegrityError
  else modify (set_usage (rows ++ [r])).

(** [GROUP BY stage ORDER BY count DESC]. *)
Definition stage_counts (eng : engine) (q : statement) (rows : list stored_row)
    : list (string * nat) :=
  order_stages eng q
    (map (fun s => (s, sql_count (List.filter (fun r => String.eqb (r_stage r) s) rows)))
         (distinct (map r_stage rows))).

(** [UsageStore.get_stats].
    [{row["stage"]: row["count"] for row in stages}]: the stages are
    distinct, so the dict has the rows in their order. *)
Definition get_stats (key : string) : M UsageStore stats :=
  let* st := get_state in
  let* rows := connect in
  let mine := List.filter (with_key key) rows in
  let total := sql_count mine in
  let success_count := sql_count (List.filter succeeded mine) in
  let avg_latency :=
    or_zero (sql_avg (sqlite st) (AvgLatency key)
                     (map r_latency_ms (List.filter measured mine))) in
  let stages := stage_counts (sqlite st) (StageCounts key) mine in
  let recent :=
    sql_limit 10 (map (fun r => mkRecent (r_timestamp r) (r_stage r) (r_model r) (r_success r))
                      (order_rows (sqlite st) (RecentOfKey key) mine)) in
  ret (mkStats key total
         (if (0 <? total)%nat then percent success_count total else 0%Q)
         avg_latency stages recent).

(** [if prompt_key: query += " AND prompt_key = ?"]: a filter that is
    [None] or the empty string adds no condition. *)
Definition supplied (f : option string) : option string :=
  match f with
  | Some s => if String.eqb s "" then None else Some s
  | None => None
  end.

Definition matches (f : option string) (col : option string) : bool :=
  match supplied f with
  | None => true
  | Some s => match col with Some c => String.eqb c s | None => false end
  end.

Definition selected (key stg session : option string) (r : stored_row) : bool :=
  matches key (Some (r_prompt_key r)) && matches stg (Some (r_stage r))
  && matches session (r_session_id r).

(** [json.loads(entry["variables_used"] or "{}")]. *)
Definition load_variables (r : stored_row) : outcome (row json) :=
  match json_loads (variables_text r) with
  | Some v =>
      Returns (mkRow (r_id r) (r_timestamp r) (r_prompt_key r) (r_prompt_hash r)
                 (r_stage r) (r_model r) (r_session_id r) v
                 (r_success r) (r_latency_ms r) (r_notes r))
  | None => Raises JSONDecodeError
  end.

Fixpoint load_all (rows : list stored_row) : outcome (list (row json)) :=
  match rows with
  | [] => Returns []
  | r :: rows' =>
      and_then (load_variables r) (fun e =>
      and_then (load_all rows') (fun es =>
      Returns (e :: es)))
  end.

(** [UsageStore.get_recent]. *)
Definition get_recent (limit : Z) (key stg session : option string)
    : M UsageStore (list (row json)) :=
  let* st := get_state in
  let* rows := connect in
  let* limit := lift (sqlite_int limit) in
  lift (load_all (sql_limit limit
          (order_rows (sqlite st) (SelectRecent key stg session limit)
                      (List.filter (selected key stg session) rows)))).

Definition aggregate (eng : engine) (q : statement) (rows : list stored_row) (k : string)
    : top_prompt :=
  let g := List.filter (with_key k) rows in
  mkTop k (sql_count g) (sql_count (List.filter succeeded g))
        (sql_avg eng q (map r_latency_ms g)) (sql_max (map r_timestamp g)).

(** [UsageStore.get_top_prompts]. *)
Definition get_top_prompts (limit : Z) : M UsageStore (list top_prompt) :=
  let* st := get_state in
  let* rows := connect in
  let* limit := lift (sqlite_int limit) in
  ret (sql_limit limit
         (order_groups (sqlite st) (TopPrompts limit)
            (map (aggregate (sqlite st) (TopPrompts limit) rows)
                 (distinct (map r_prompt_key rows))))).

End UsageStore.

End Observer.

(** ** The module-level functions of store.py and observer.py *)

Module Facade.

Import Observer.

Local Open Scope eff_scope.

(** The process: the two global instances, the prompts files, and what
    [UsageStore()] finds at the default path ([None] when the store cannot
    be created there). *)
Record World : Type := mkWorld {
  _store : option PromptStore;
  _usage_store : option UsageStore;
  files : filesystem;
  default_db : option UsageStore
}.

Definition set_store (st : option PromptStore) (w : World) : World :=
  mkWorld st (_usage_store w) (files w) (default_db w).
Definition set_usage_store (u : option UsageStore) (w : World) : World :=
  mkWorld (_store w) u (files w) (default_db w).

(** What a call draws from outside: [uuid.uuid4()], [datetime.utcnow()],
    and the exception, if any, that starting the forwarding thread
    raises. *)
Record Env : Type := mkEnv {
  uuid4 : string;
  utcnow : string;
  forward : option exn
}.

(** [init_store]: the global is assigned once the constructor has
    returned. *)
Definition init_store (path : string) : M World PromptStore :=
  fun w =>
    let r := PromptStore_.init (files w) path PromptStore_.empty in
    match result_of r with
    | Returns _ => (Returns (state_of r), set_store (Some (state_of r)) w, logs_of r)
    | Raises e => (Raises e, w, logs_of r)
    | Unmodelled => (Unmodelled, w, logs_of r)
    end.

(** [get_store]. *)
Definition get_store : M World PromptStore :=
  let* w := get_state in
  match _store w with
  | Some st => ret st
  | None =>
      let* _ := modify (set_store (Some PromptStore_.empty)) in
      ret PromptStore_.empty
  end.

(** [get_prompt]; an instance of the dataclass is always true. *)
Definition get_prompt (k : string) (format_kwargs : list (string * string)) : M World json :=
  let* store := get_store in
  match PromptStore_.get store k with
  | None =>
      let* _ := log WARNING "Prompt not found" in
      ret (JStr "")
  | Some prompt => Prompt_format prompt format_kwargs
  end.

(** [list_prompts], [has_prompt], [reload_prompts]. *)
Definition list_prompts : M World (list string) :=
  let* store := get_store in
  ret (PromptStore_.list_keys store).

Definition has_prompt (k : string) : M World bool :=
  let* store := get_store in
  ret (PromptStore_.has store k).

Definition reload_prompts : M World unit :=
  let* store := get_store in
  fun w =>
    let r := PromptStore_.reload (files w) store in
    (result_of r, set_store (Some (state_of r)) w, logs_of r).

(** [_get_store] of observer.py. *)
Definition _get_store : M World UsageStore :=
  let* w := get_state in
  match _usage_store w with
  | Some u => ret u
  | None =>
      match default_db w with
      | Some u =>
          let* _ := modify (set_usage_store (Some u)) in
          ret u
      | None => raise OSError
      end
  end.

(** [_get_store().method(...)]. *)
Definition on_usage_store {A} (m : M UsageStore A) : M World A :=
  let* u := _get_store in
  fun w =>
    match m u with
    | (r, u', l) => (r, set_usage_store (Some u') w, l)
    end.

(** [_hash_prompt]: only a [str] has [encode], and [encode] raises on a
    lone surrogate. *)
Definition _hash_prompt (text : json) : outcome string :=
  match text with
  | JStr s =>
      if Str.has_surrogate s then Raises UnicodeEncodeError
      else Returns (String.substring 0 12 (SHA256.hexdigest s))
  | _ => Raises AttributeError
  end.

(** [_send_to_langfuse]: nothing the caller can observe but a failure to
    start the thread. *)
Definition _send_to_langfuse (env : Env) (entry : UsageLog) : M World unit :=
  match forward env with
  | None => ret tt
  | Some e => raise e
  end.

(** [_hash_prompt(prompt_text) if prompt_text else "unknown"]. *)
Definition resolve_hash (prompt_text : json) : outcome string :=
  if truthy prompt_text then _hash_prompt prompt_text else Returns "unknown".

Section log_usage.

Variable json_dumps : json -> serialised.

(** [log_usage] up to the construction of the entry. *)
Definition log_usage_entry (env : Env) (prompt_key stage : string)
    (prompt_text model session_id : option string)
    (variables_used : option (list (string * json)))
    (success : bool) (latency_ms : Q) (notes : option string) : M World UsageLog :=
  let log_id := uuid4 env in
  let* prompt_text :=
    match prompt_text with
    | None => get_prompt prompt_key []
    | Some t => ret (JStr t)
    end in
  let* prompt_hash := lift (resolve_hash prompt_text) in
  ret (mkUsageLog log_id (utcnow env) prompt_key prompt_hash stage model session_id
         (JDict (default [] variables_used)) success latency_ms notes).

(** [log_usage]. *)
Definition log_usage (env : Env) (prompt_key stage : string)
    (prompt_text model session_id : option string)
    (variables_used : option (list (string * json)))
    (success : bool) (latency_ms : Q) (notes : option string) : M World string :=
  let* entry := log_usage_entry env prompt_key stage prompt_text model session_id
                  variables_used success latency_ms notes in
  let* _ :=
    try_except
      (let* _ := on_usage_store (log_entry json_dumps entry) in
       let* _ := _send_to_langfuse env entry in
       log DEBUG "[Observer] Logged usage")
      (fun e => log WARNING "[Observer] Failed to log usage") in
  ret (id entry).

End log_usage.

(** [get_stats], [get_recent_logs], [get_top_prompts] of the module. *)
Definition get_stats (k : string) : M World stats :=
  on_usage_store (Observer.get_stats k).

Definition get_recent_logs (json_loads : string -> option json) (limit : Z)
    (k stg session : option string) : M World (list (row json)) :=
  on_usage_store (Observer.get_recent json_loads limit k stg session).

Definition get_top_prompts (limit : Z) : M World (list top_prompt) :=
  on_usage_store (Observer.get_top_prompts limit).

End Facade.

(** ** cli.py

    The commands [validate], [list] and [export].  A command prints, may
    leave through [sys.exit], and may end in an exception nobody catches.
    A printed line that only puts strings together is kept as the string;
    a line that formats a number or a path is kept as its format and its
    arguments.  [search] lowers case, and [view] and [stats] format lists
    and floats: they are not modelled. *)

Module Cli.

Import Facade.

(** How a command ends that ends in an exception: in a [TypeError] of
    [validate], or in an exception of the code below it. *)
Inductive error : Type :=
| TypeError
| Other (e : exn).

Inductive attempt (A : Type) : Type :=
| Ok (a : A)
| Fail (e : error)
| Outside.
Arguments Ok {A} a.
Arguments Fail {A} e.
Arguments Outside {A}.

Definition and_then' {A B} (m : attempt A) (k : A -> attempt B) : attempt B :=
  match m with
  | Ok a => k a
  | Fail e => Fail e
  | Outside => Outside
  end.

Definition of_outcome {A} (o : outcome A) : attempt A :=
  match o with
  | Returns a => Ok a
  | Raises e => Fail (Other e)
  | Unmodelled => Outside
  end.

(** [x in s] on two strings. *)
Fixpoint is_substring (x s : string) : bool :=
  Str.starts_with x s
  || match s with
     | EmptyString => false
     | String _ s' => is_substring x s'
     end.

(** [x in v] for a string [x]: a key of a dict, an element of a list, a
    part of a string; nothing else is a container. *)
Definition contains (x : string) (v : json) : attempt bool :=
  match v with
  | JDict d => Ok (bool_decide (is_Some (assoc x d)))
  | JList l => Ok (existsb (fun e => match e with
                                     | JStr s => String.eqb s x
                                     | _ => false
                                     end) l)
  | JStr s => Ok (is_substring x s)
  | _ => Fail TypeError
  end.

(** [v[k]] for a string [k]: only a dict is indexed by a string. *)
Definition subscript (v : json) (k : string) : attempt json :=
  match v with
  | JDict d =>
      match assoc k d with
      | Some x => Ok x
      | None => Fail (Other (KeyError k))
      end
  | _ => Fail TypeError
  end.

(** [for x in v]: the elements of a list, the keys of a dict, the
    characters of a string (code points: a string that is not ASCII is
    outside the model). *)
Definition iterate (v : json) : attempt (list json) :=
  match v with
  | JList l => Ok l
  | JDict d => Ok (map (fun kv => JStr kv.1) d)
  | JStr s =>
      if Str.forall_chars Str.is_ascii s
      then Ok (map (fun c => JStr (String c EmptyString)) (list_ascii_of_string s))
      else Outside
  | _ => Fail TypeError
  end.

(** [len(v)]. *)
Definition py_len (v : json) : attempt nat :=
  match v with
  | JDict d => Ok (length d)
  | JList l => Ok (length l)
  | JStr s => if Str.forall_chars Str.is_ascii s then Ok (String.length s) else Outside
  | _ => Fail TypeError
  end.

(** What [print] is called with. *)
Inductive line : Type :=
| Plain (s : string)
| NoPromptsFile
| FileNotFound (path : string)
| InvalidJSON
| ValidCount (n : nat)
| Total (n : nat)
| ByPrefix
| PrefixCount (prefix : string) (n : nat)
| Exported (n : nat) (path : string).

Inductive ending : Type :=
| Finished
| Exit (code : Z)
| Traceback (e : error)
| NotModelled.

Record run : Type := mkRun {
  stdout : list line;
  stderr : list line;
  ended : ending
}.

(** *** [cmd_validate] *)

(** [for var in ...: if "{" + var + "}" not in text: warnings.append(...)]. *)
Fixpoint check_variables (key : string) (text : json) (vars : list json)
    (warnings : list string) : attempt (list string) :=
  match vars with
  | [] => Ok warnings
  | JStr var :: rest =>
      and_then' (contains (Str.braced var) text) (fun used =>
      check_variables key text rest
        (if used then warnings
         else warnings ++ [key +:+ ": Variable '" +:+ var +:+ "' not used in text"]))
  | _ :: _ => Fail TypeError
  end.

(** The body of the loop over the prompts. *)
Definition check_prompt (key : string) (prompt : json)
    (found : list string * list string) : attempt (list string * list string) :=
  let '(errors, warnings) := found in
  and_then' (contains "text" prompt) (fun has_text =>
  and_then'
    (if negb has_text
     then Ok (errors ++ [key +:+ ": Missing 'text' field"], warnings)
     else and_then' (subscript prompt "text") (fun text =>
          Ok (errors,
              if truthy text then warnings else warnings ++ [key +:+ ": Empty text"])))
    (fun found' =>
  let '(errors, warnings) := found' in
  and_then' (contains "variables" prompt) (fun has_variables =>
  if has_variables && has_text
  then and_then' (subscript prompt "text") (fun text =>
       and_then' (subscript prompt "variables") (fun vars =>
       and_then' (iterate vars) (fun vars =>
       and_then' (check_variables key text vars warnings) (fun warnings =>
       Ok (errors, warnings)))))
  else Ok (errors, warnings)))).

Fixpoint check_prompts (its : list (string * json))
    (found : list string * list string) : attempt (list string * list string) :=
  match its with
  | [] => Ok found
  | (key, prompt) :: rest =>
      and_then' (check_prompt key prompt found) (check_prompts rest)
  end.

(** The errors and the warnings of a document. *)
Definition check (data : json) : attempt (list string * list string) :=
  and_then' (contains "prompts" data) (fun has_prompts =>
  if negb has_prompts then Ok (["Missing 'prompts' key"], [])
  else and_then' (subscript data "prompts") (fun prompts =>
       and_then' (of_outcome (items prompts)) (fun its =>
       check_prompts its ([], [])))).

Definition bullets (title : string) (l : list string) : list line :=
  match l with
  | [] => []
  | _ :: _ => Plain title :: map (fun m => Plain ("  - " +:+ m)) l
  end.

Definition is_nil {A} (l : list A) : bool :=
  match l with [] => true | _ :: _ => false end.

(** [cmd_validate(args)] on the file at [args.file]. *)
Definition cmd_validate (f : file) (path : string) : run :=
  match f with
  | Absent => mkRun [] [FileNotFound path] (Exit 1)
  | Unreadable | Inaccessible => mkRun [] [] (Traceback (Other OSError))
  | Malformed => mkRun [] [InvalidJSON] (Exit 1)
  | Document data =>
      match check data with
      | Ok (errors, warnings) =>
          let report := bullets "Errors:" errors ++ bullets "Warnings:" warnings in
          if is_nil errors && is_nil warnings
          then match and_then' (of_outcome (get data "prompts" (JDict []))) py_len with
               | Ok n => mkRun (report ++ [ValidCount n]) [] Finished
               | Fail e => mkRun report [] (Traceback e)
               | Outside => mkRun report [] NotModelled
               end
          else if is_nil errors then mkRun report [] Finished
          else mkRun report [] (Exit 1)
      | Fail e => mkRun [] [] (Traceback e)
      | Outside => mkRun [] [] NotModelled
      end
  end.

(** *** The prompts file of [list] and [export] *)







(** *** [cmd_list] *)

(** [key.split(".")[0] if "." in key else key]. *)
Fixpoint before_dot (s : string) : string :=
  match s with
  | EmptyString => EmptyString
  | String c s' => if Ascii.eqb c "." then EmptyString else String c (before_dot s')
  end.

Definition prefix_of (key : string) : string :=
  if Str.exists_char (Ascii.eqb ".") key then before_dot key else key.






(** *** [cmd_export] *)




Section export.

(** [store.items()] lists the mapping in the order of insertion, which the
    mapping of the model does not keep: the enumeration is given. *)
Variable store_items : PromptStore -> list (string * Prompt).



End export.

End Cli.

(** * Definitions used to state the properties *)

Module StoreSpec.

(** The record [_load] builds from the object [d] of key [k]. *)
Definition prompt_of (k : string) (d : list (string * json)) : Prompt :=
  mkPrompt k (dict_get d "text" (JStr "")) (dict_get d "variables" (JList []))
           (dict_get d "source" (JStr "bundled")) (dict_get d "notes" (JStr "")).

(** A [prompts] object all of whose values are objects. *)
Definition objects (objs : list (string * list (string * json))) : list (string * json) :=
  map (fun kd => (kd.1, JDict kd.2)) objs.

Definition insert_all (objs : list (string * list (string * json)))
    (m : gmap string Prompt) : gmap string Prompt :=
  fold_left (fun m kd => <[kd.1 := prompt_of kd.1 kd.2]> m) objs m.

(** The prompts file of tests/test_store.py, and a file system holding it
    under one path. *)
Definition sample_objects : list (string * list (string * json)) :=
  [("greeting",
    [("text", JStr "Hello {name}!");
     ("variables", JList [JStr "name"]);
     ("source", JStr "test");
     ("notes", JStr "A greeting prompt")]);
   ("analysis.sentiment",
    [("text", JStr "Analyze: {text}");
     ("variables", JList [JStr "text"]);
     ("source", JStr "test");
     ("notes", JStr "Sentiment analysis")])].

Definition sample_top : list (string * json) :=
  [("version", JStr "1.0"); ("prompts", JDict (objects sample_objects))].

Definition sample_prompts : json := JDict sample_top.

Definition holding (p : string) (f : file) : filesystem :=
  fun q => if String.eqb q p then f else Absent.

Definition sample_store : PromptStore :=
  PromptStore_.new (holding "prompts.json" (Document sample_prompts)) (Some "prompts.json").

End StoreSpec.

Module FormatSpec.

(** A template as the specification sees it: literal text, and
    placeholders [{name}]. *)
Inductive segment : Type :=
| Lit (s : string)
| Hole (name : string).

Definition render_segment (seg : segment) : string :=
  match seg with
  | Lit s => s
  | Hole n => Str.braced n
  end.

Fixpoint render (segs : list segment) : string :=
  match segs with
  | [] => EmptyString
  | seg :: segs' => render_segment seg +:+ render segs'
  end.

(** Best-effort substitution, as the specification words it: a
    placeholder whose name has a value becomes the value, every other
    placeholder stays as it is. *)
Definition substitute (kwargs : list (string * string)) (seg : segment) : string :=
  match seg with
  | Lit s => s
  | Hole n =>
      match assoc n kwargs with
      | Some v => v
      | None => Str.braced n
      end
  end.

Fixpoint partial_format (kwargs : list (string * string)) (segs : list segment) : string :=
  match segs with
  | [] => EmptyString
  | seg :: segs' => substitute kwargs seg +:+ partial_format kwargs segs'
  end.

Definition is_brace (c : ascii) : bool :=
  Ascii.eqb c Str.lbrace || Ascii.eqb c Str.rbrace.

Definition brace_free (s : string) : bool :=
  Str.forall_chars (fun c => negb (is_brace c)) s.

(** A name that [str.format] takes as a keyword: no brace, bracket, colon,
    exclamation mark or dot, and an ASCII character that is not a digit. *)
Definition plain_char (c : ascii) : bool :=
  negb (is_brace c) && negb (Ascii.eqb c "["%char) && negb (Ascii.eqb c ":"%char)
  && negb (Ascii.eqb c "!"%char) && negb (Ascii.eqb c "."%char).

Definition is_keyword (n : string) : bool :=
  Str.forall_chars plain_char n
  && Str.exists_char (fun c => Str.is_ascii c && negb (Str.is_digit c)) n.

Definition simple (seg : segment) : bool :=
  match seg with
  | Lit s => brace_free s
  | Hole n => is_keyword n
  end.

Definition supplied_all (kwargs : list (string * string)) (segs : list segment) : bool :=
  forallb (fun seg => match seg with
                      | Lit _ => true
                      | Hole n => bool_decide (is_Some (assoc n kwargs))
                      end) segs.

Definition brace_free_kwargs (kwargs : list (string * string)) : bool :=
  forallb (fun kv => brace_free kv.1 && brace_free kv.2) kwargs.

(** One step of the substitution: the placeholders named [k] become the
    literal [v]. *)
Definition fill_segment (k v : string) (seg : segment) : segment :=
  match seg with
  | Lit s => Lit s
  | Hole n => if String.eqb n k then Lit v else Hole n
  end.

Definition fill (k v : string) (segs : list segment) : list segment :=
  map (fill_segment k v) segs.

Definition brace_free_segment (seg : segment) : bool :=
  match seg with
  | Lit s => brace_free s
  | Hole n => brace_free n
  end.

(** The prompt of tests/test_store.py. *)
Definition welcome : Prompt :=
  mkPrompt "test" (JStr "Hello {name}, welcome to {app}!")
           (JList [JStr "name"; JStr "app"]) (JStr "test") (JStr "").

Definition welcome_segments : list segment :=
  [Lit "Hello "; Hole "name"; Lit ", welcome to "; Hole "app"; Lit "!"].

End FormatSpec.

(** An engine to compute with: whatever the statement, it orders by a
    merge sort and averages exactly. *)
Module Engines.

Import Observer.

#[global] Instance newer_first_total : Total (@newer_first (option string)).
Proof. intros a b. unfold newer_first. destruct (total String.le (r_timestamp a) (r_timestamp b)); auto. Qed.

#[global] Instance newer_first_trans : Transitive (@newer_first (option string)).
Proof. intros a b c Hab Hbc. unfold newer_first in *. by transitivity (r_timestamp b). Qed.

#[global] Instance more_first_total : Total more_first.
Proof. intros a b. unfold more_first. lia. Qed.

#[global] Instance more_first_trans : Transitive more_first.
Proof. intros a b c. unfold more_first. lia. Qed.

#[global] Instance most_used_first_total : Total most_used_first.
Proof. intros a b. unfold most_used_first. lia. Qed.

#[global] Instance most_used_first_trans : Transitive most_used_first.
Proof. intros a b c. unfold most_used_first. lia. Qed.

Lemma merge_sort_sorts {A} (R : relation A) `{!RelDecision R, !Total R, !Transitive R} l :
  merge_sort R l ≡ₚ l /\ StronglySorted R (merge_sort R l).
Proof. split; [apply merge_sort_Permutation | by apply StronglySorted_merge_sort]. Qed.

Definition Qsum (l : list Q) : Q := fold_right Qplus 0%Q l.

Definition mean (l : list Q) : Q := (Qsum l / inject_Z (Z.of_nat (length l)))%Q.

Lemma Qsum_positive l : l <> [] -> Forall (fun x => 0 < x)%Q l -> (0 < Qsum l)%Q.
Proof.
  intros Hne Hall. induction Hall as [|x l Hx Hl IH]; [done|].
  cbn [Qsum fold_right]. fold (Qsum l). destruct l as [|y l].
  - cbn. by rewrite Qplus_0_r.
  - assert (0 < Qsum (y :: l))%Q by (by apply IH).
    apply (Qlt_le_trans _ (x + 0)%Q); [by rewrite Qplus_0_r|].
    apply Qplus_le_r. by apply Qlt_le_weak.
Qed.

Lemma mean_positive l : l <> [] -> Forall (fun x => 0 < x)%Q l -> (0 < mean l)%Q.
Proof.
  intros Hne Hall. unfold mean. apply Qlt_shift_div_l.
  - destruct l; [done|]. unfold Qlt, inject_Z. cbn [Qnum Qden length]. lia.
  - rewrite Qmult_0_l. by apply Qsum_positive.
Qed.

Definition exact : engine :=
  mkEngine (fun _ => merge_sort newer_first) (fun _ => merge_sort_sorts newer_first)
           (fun _ => merge_sort more_first) (fun _ => merge_sort_sorts more_first)
           (fun _ => merge_sort most_used_first)
           (fun _ => merge_sort_sorts most_used_first)
           (fun _ => mean) (fun _ => mean_positive).

End Engines.

Module FacadeSpec.

Import Observer Facade.

(** The text [log_usage] hashes: the argument when there is one, else what
    [get_prompt] finds under the key in the active store. *)
Definition effective_text (w : World) (prompt_key : string)
    (prompt_text : option string) : json :=
  match prompt_text with
  | Some t => JStr t
  | None =>
      match _store w with
      | Some st =>
          match PromptStore_.get st prompt_key with
          | Some p => text p
          | None => JStr ""
          end
      | None => JStr ""
      end
  end.

(** A text [log_usage] can hash: one that is false, and a string that
    holds no lone surrogate. *)
Definition hashable (v : json) : bool :=
  negb (truthy v)
  || match v with
     | JStr s => negb (Str.has_surrogate s)
     | _ => false
     end.

(** The usage store a call of the module works on: the global instance, or
    the one [UsageStore()] creates when there is none yet. *)
Definition usage_store_of (w : World) : option UsageStore :=
  match _usage_store w with
  | Some u => Some u
  | None => default_db w
  end.

(** The two records the guarded part of [log_usage] writes. *)
Definition logged : log_record := (DEBUG, "[Observer] Logged usage").
Definition failed : log_record := (WARNING, "[Observer] Failed to log usage").

(** The entry [log_usage] builds, given the hash. *)
Definition built (env : Env) (k h stg : string) (mdl ses : option string)
    (vars : option (list (string * json))) (ok : bool) (lat : Q)
    (nts : option string) : UsageLog :=
  mkUsageLog (uuid4 env) (utcnow env) k h stg mdl ses (JDict (default [] vars)) ok lat nts.

(** The entry is stored: the process has or can create its usage store,
    and [log] returns on it. *)
Definition persisted (json_dumps : json -> serialised) (w : World) (e : UsageLog) : Prop :=
  exists u, usage_store_of w = Some u /\ result_of (log_entry json_dumps e u) = Returns tt.

Definition is_hex (c : ascii) : bool :=
  Str.is_digit c || ((97 <=? nat_of_ascii c)%nat && (nat_of_ascii c <=? 102)%nat).

(** A serialiser and a parser that know the empty object only, and an
    empty, usable database. *)
Definition dumps_empty (v : json) : serialised := Text "{}".


Definition empty_db : UsageStore :=
  mkUsageStore "usage.db" true true OperationalError Engines.exact [].

Definition broken_db : UsageStore :=
  mkUsageStore "usage.db" false false OperationalError Engines.exact [].

(** A process started on a prompts file in which the text of a prompt is a
    number. *)
Definition number_text_world : World :=
  state_of (init_store "p.json"
    (mkWorld None None
       (StoreSpec.holding "p.json"
          (Document (JDict [("prompts", JDict [("k", JDict [("text", JNum 5)])])])))
       (Some empty_db))).

(** A process started on the prompts file of the tests, without a usable
    database. *)
Definition sample_world : World :=
  state_of (init_store "prompts.json"
    (mkWorld None None
       (StoreSpec.holding "prompts.json" (Document StoreSpec.sample_prompts))
       (Some broken_db))).

Definition sample_env : Env := mkEnv "0b5b2c4e-7f0a-4e0e-9d39-0c1f5a3e8a11" "2024-01-01T00:00:00" None.

End FacadeSpec.

Module ObserverSpec.

Import Observer.

(** The entries of tests/test_observer.py: five uses of one prompt, the
    last of which failed; and three, two and one uses of three prompts. *)
Definition entry (i ts k : string) (ok : bool) (lat : Q) : UsageLog :=
  mkUsageLog i ts k "abc123" "chat" None None (JDict []) ok lat None.

Definition log_all (es : list UsageLog) (st : UsageStore) : UsageStore :=
  fold_left (fun st e => state_of (log_entry FacadeSpec.dumps_empty e st)) es st.

Definition five_greetings : UsageStore :=
  log_all [entry "test-0" "2024-01-01T00:00:00" "greeting" true 100;
           entry "test-1" "2024-01-01T00:00:01" "greeting" true 110;
           entry "test-2" "2024-01-01T00:00:02" "greeting" true 120;
           entry "test-3" "2024-01-01T00:00:03" "greeting" true 130;
           entry "test-4" "2024-01-01T00:00:04" "greeting" false 140]
          FacadeSpec.empty_db.

Definition three_two_one : UsageStore :=
  log_all [entry "a-1" "2024-01-01T00:00:00" "a" true 0;
           entry "a-2" "2024-01-01T00:00:00" "a" true 0;
           entry "a-3" "2024-01-01T00:00:00" "a" true 0;
           entry "b-1" "2024-01-01T00:00:00" "b" true 0;
           entry "b-2" "2024-01-01T00:00:00" "b" true 0;
           entry "c-1" "2024-01-01T00:00:00" "c" true 0]
          FacadeSpec.empty_db.

(** The rows of a prompt; those that record a success; and those whose
    latency is positive. *)
Definition rows_of (k : string) (st : UsageStore) : list stored_row :=
  List.filter (fun r => String.eqb (r_prompt_key r) k) (usage st).

Definition succeeded_of (k : string) (st : UsageStore) : list stored_row :=
  List.filter (fun r => r_success r =? 1) (rows_of k st).

Definition measured_of (k : string) (st : UsageStore) : list stored_row :=
  List.filter (fun r => if Qlt_le_dec 0 (r_latency_ms r) then true else false)
              (rows_of k st).


Definition Qlen {A} (l : list A) : Q := inject_Z (Z.of_nat (length l)).






End ObserverSpec.

Module StoreInv.

(** Every record sits under its own key. *)
Definition keyed (st : PromptStore) : Prop :=
  forall k p, _prompts st !! k = Some p -> key p = k.

(** A file system whose file at one path is valid JSON but not an
    object. *)
Definition list_file : filesystem :=
  StoreSpec.holding "prompts.json" (Document (JList [JStr "prompts"])).

End StoreInv.

Module FormatInv.

(** The exceptions of [str.format] on keyword arguments. *)
Definition format_exn (e : exn) : bool :=
  match e with
  | ValueError | IndexError | KeyError _ => true
  | _ => false
  end.

End FormatInv.

Module ObserverInv.

Import Observer.

(** The text [json.dumps] returns, when it returns. *)
Definition dumped (json_dumps : json -> serialised) (v : json) : string :=
  match json_dumps v with
  | Text s => s
  | Refused _ => EmptyString
  end.

(** The row [UsageStore.log] inserts for an entry. *)
Definition stored (json_dumps : json -> serialised) (e : UsageLog) : stored_row :=
  mkRow (id e) (timestamp e) (prompt_key e) (prompt_hash e) (stage e) (model e)
        (session_id e) (Some (dumped json_dumps (variables_used e)))
        (if success e then 1 else 0) (latency_ms e) (notes e).

(** The primary key: no two rows share an id. *)
Definition unique_ids (st : UsageStore) : Prop := NoDup (map r_id (usage st)).

Definition fresh_id (e : UsageLog) (st : UsageStore) : Prop :=
  id e ∉ map r_id (usage st).

(** Newest first, on the rows of [recent]. *)
Definition recent_newer_first (a b : recent_row) : Prop :=
  String.le (rr_timestamp b) (rr_timestamp a).

Definition total_count {A} (f : A -> nat) (l : list A) : nat :=
  fold_right (fun x n => (f x + n)%nat) 0%nat l.

End ObserverInv.

Module FacadeInv.

Import Observer Facade.

(** The rows of the usage store of the process, if it has one. *)
Definition usage_rows (w : World) : option (list stored_row) :=
  usage <$> _usage_store w.

(** A process with the prompts of the tests and an empty, usable
    database. *)
Definition logging_world : World :=
  mkWorld (Some StoreSpec.sample_store) None
          (StoreSpec.holding "prompts.json" (Document StoreSpec.sample_prompts))
          (Some FacadeSpec.empty_db).


(** The string of the one code point U+D800, a lone surrogate, as
    [json.load] makes it from the six characters of its escape. *)
Definition lone_surrogate : string :=
  String (ascii_of_nat 237) (String (ascii_of_nat 160) (String (ascii_of_nat 128) "")).

End FacadeInv.

Module CliSpec.

Import Cli.

Definition has_text (d : list (string * json)) : bool :=
  bool_decide (is_Some (assoc "text" d)).

Definition is_str (v : json) : bool :=
  match v with JStr _ => true | _ => false end.

(** A prompt object whose [text], when it has one, is a string, and whose
    [variables], when it has them, are a list of strings. *)
Definition typed (d : list (string * json)) : bool :=
  match assoc "text" d with
  | Some (JStr _) | None => true
  | Some _ => false
  end
  && match assoc "variables" d with
     | Some (JList vars) => forallb is_str vars
     | None => true
     | Some _ => false
     end.

(** A prompt object with nothing to report: its text is a string that is
    not empty, and each of its variables stands in the text between
    braces. *)
Definition clean (d : list (string * json)) : bool :=
  match assoc "text" d with
  | Some (JStr s) =>
      negb (String.eqb s "")
      && match assoc "variables" d with
         | Some (JList vars) =>
             forallb (fun v => match v with
                               | JStr x => is_substring (Str.braced x) s
                               | _ => false
                               end) vars
         | None => true
         | Some _ => false
         end
  | _ => false
  end.

(** The errors [validate] finds in a [prompts] object whose values are
    objects. *)
Definition missing_text (objs : list (string * list (string * json))) : list string :=
  map (fun kd => kd.1 +:+ ": Missing 'text' field")
      (List.filter (fun kd => negb (has_text kd.2)) objs).

(** The variables of a prompt that do not stand in its text, and the
    warnings [validate] has for a prompt object. *)
Definition unused (s : string) (vars : list json) : list string :=
  flat_map (fun v => match v with
                     | JStr x => if is_substring (Str.braced x) s then [] else [x]
                     | _ => []
                     end) vars.

Definition warnings_of (key : string) (d : list (string * json)) : list string :=
  match assoc "text" d with
  | Some (JStr s) =>
      (if String.eqb s "" then [key +:+ ": Empty text"] else [])
      ++ match assoc "variables" d with
         | Some (JList vars) =>
             map (fun x => key +:+ ": Variable '" +:+ x +:+ "' not used in text")
                 (unused s vars)
         | _ => []
         end
  | _ => []
  end.

Definition all_warnings (objs : list (string * list (string * json))) : list string :=
  flat_map (fun kd => warnings_of kd.1 kd.2) objs.

(** The object behind a value of [prompts]. *)
Definition fields_of (v : json) : list (string * json) :=
  match v with
  | JDict d => d
  | _ => []
  end.

Definition as_objects (its : list (string * json)) : list (string * list (string * json)) :=
  map (fun kv => (kv.1, fields_of kv.2)) its.







End CliSpec.

(** * The equations of the monad *)

Module EffProps.

Lemma bind_get_state {S A} (k : S -> M S A) s : Eff.bind get_state k s = k s s.
Proof. unfold Eff.bind, get_state. by destruct (k s s) as [[r s2] l]. Qed.

Lemma bind_modify {S A} (f : S -> S) (k : unit -> M S A) s :
  Eff.bind (modify f) k s = k tt (f s).
Proof. unfold Eff.bind, modify. by destruct (k tt (f s)) as [[r s2] l]. Qed.

Lemma bind_ret {S A B} (a : A) (k : A -> M S B) s : Eff.bind (ret a) k s = k a s.
Proof. unfold Eff.bind, ret. by destruct (k a s) as [[r s2] l]. Qed.

Lemma bind_lift_returns {S A B} (a : A) (k : A -> M S B) s :
  Eff.bind (lift (Returns a)) k s = k a s.
Proof. unfold Eff.bind, lift. by destruct (k a s) as [[r s2] l]. Qed.

Lemma bind_lift_raises {S A B} e (k : A -> M S B) s :
  Eff.bind (lift (Raises e)) k s = (Raises e, s, []).
Proof. reflexivity. Qed.

Lemma bind_raise {S A B} e (k : A -> M S B) s :
  Eff.bind (raise e) k s = (Raises e, s, []).
Proof. reflexivity. Qed.

End EffProps.

(** * Properties of the prompt store *)

Module StoreProps.

Import PromptStore_.

Import StoreSpec.

Lemma make_prompt_object k d : make_prompt k (JDict d) = Returns (prompt_of k d).
Proof. reflexivity. Qed.

Lemma load_items_objects objs st :
  load_items (objects objs) st
  = (Returns tt, set_prompts (insert_all objs (_prompts st)) st, []).
Proof.
  revert st. induction objs as [|[k d] objs IH]; intros st.
  - destruct st; reflexivity.
  - simpl. unfold Eff.bind at 1. simpl. unfold Eff.bind at 1. simpl.
    rewrite IH. simpl. reflexivity.
Qed.

Lemma insert_all_lookup_notin objs m k :
  k ∉ objs.*1 -> insert_all objs m !! k = m !! k.
Proof.
  revert m. induction objs as [|[k' d'] objs IH]; intros m Hk; simpl in *.
  - reflexivity.
  - apply not_elem_of_cons in Hk as [Hne Hk].
    rewrite IH by assumption. by rewrite lookup_insert_ne.
Qed.

Lemma insert_all_lookup objs m k d :
  NoDup objs.*1 -> (k, d) ∈ objs -> insert_all objs m !! k = Some (prompt_of k d).
Proof.
  revert m. induction objs as [|[k' d'] objs IH]; intros m Hnd Hin; simpl in *.
  - by apply elem_of_nil in Hin.
  - apply NoDup_cons in Hnd as [Hk' Hnd].
    apply elem_of_cons in Hin as [Heq|Hin].
    + inversion Heq; subst. rewrite insert_all_lookup_notin by assumption.
      by rewrite lookup_insert_eq.
    + by apply IH.
Qed.

Lemma insert_all_dom objs m k :
  is_Some (insert_all objs m !! k) <-> k ∈ objs.*1 \/ is_Some (m !! k).
Proof.
  revert m. induction objs as [|[k' d'] objs IH]; intros m; simpl.
  - rewrite elem_of_nil. tauto.
  - rewrite IH, elem_of_cons. destruct (decide (k' = k)) as [->|Hne].
    + rewrite lookup_insert_eq. split; [intros _; by left; left | intros _; right; eauto].
    + rewrite lookup_insert_ne by assumption. split; [tauto|].
      intros [[?|?]|?]; [congruence | tauto | tauto].
Qed.

(** What [_load] does with a well-formed document. *)
Lemma load_well_formed fs st p top objs :
  _path st = Some p ->
  fs p = Document (JDict top) ->
  dict_get top "prompts" (JDict []) = JDict (objects objs) ->
  _load fs st
  = (Returns tt,
     mkPromptStore (Some p) (insert_all objs ∅) (dict_get top "version" (JStr "1.0")),
     [(INFO, "Loaded prompts")]).
Proof.
  intros Hp Hf Hobjs. unfold _load, Eff.bind at 1. simpl. rewrite Hp, Hf.
  unfold try_except, load_body. unfold Eff.bind at 1. simpl.
  unfold Eff.bind at 1. simpl. unfold Eff.bind at 1. simpl.
  unfold Eff.bind at 1. simpl. rewrite Hobjs.
  unfold Eff.bind at 1. simpl. unfold Eff.bind at 1. simpl.
  unfold Eff.bind at 1. rewrite load_items_objects. simpl.
  unfold set_prompts, set_version. simpl. rewrite Hp. reflexivity.
Qed.

(** A load that fails before the document is processed leaves the store
    as it was. *)
Lemma load_unparsed_preserves fs st p :
  _path st = Some p ->
  fs p = Absent \/ fs p = Unreadable \/ fs p = Malformed ->
  state_of (_load fs st) = st.
Proof.
  intros Hp Hf. unfold _load, Eff.bind at 1. simpl. rewrite Hp.
  destruct Hf as [-> | [-> | ->]]; reflexivity.
Qed.

(** C1, at a failing input.  The store of tests/test_store.py holds two
    prompts.  Reloading it from a file that is valid JSON but whose
    [prompts] object maps a key to a number fails inside the loop, after
    [self._prompts.clear()]: the error is caught and logged, and the store
    is left empty.  When an object precedes the number, the store is left
    with that one prompt.  The mapping is not the one before the load. *)
Theorem failed_load_after_parse_loses_prompts :
  let broken := holding "prompts.json"
                  (Document (JDict [("prompts", JDict [("x", JNum 1)])])) in
  let partial := holding "prompts.json"
                   (Document (JDict [("prompts", JDict [("a", JDict []); ("x", JNum 1)])])) in
  len sample_store = 2%nat /\
  is_Some (get sample_store "greeting") /\
  result_of (reload broken sample_store) = Returns tt /\
  logs_of (reload broken sample_store) = [(ERROR, "Failed to load prompts")] /\
  len (state_of (reload broken sample_store)) = 0%nat /\
  get (state_of (reload broken sample_store)) "greeting" = None /\
  len (state_of (reload partial sample_store)) = 1%nat /\
  list_keys (state_of (reload partial sample_store)) = ["a"].
Proof.
  vm_compute. repeat split; eauto.
Qed.

(** C6, as stated, fails: a prompt object without [source] is loaded with
    the source ["bundled"], not with the empty string. *)
Lemma absent_source_is_not_empty :
  let st := new (holding "p.json" (Document (JDict [("prompts", JDict [("k", JDict [])])])))
                (Some "p.json") in
  exists pr, get st "k" = Some pr /\ source pr = JStr "bundled" /\ source pr <> JStr "".
Proof.
  eexists. split; [vm_compute; reflexivity|]. split; [reflexivity | discriminate].
Qed.

(** C6, amended.  After a load of a well-formed file the version is the
    file's [version], or ["1.0"] when the file has none, and the record of
    every key of [prompts] carries the file's value of each field that is
    present and a default for each one that is absent: the empty string
    for [text] and [notes], the empty list for [variables], and
    ["bundled"] for [source]. *)
Theorem loaded_prompt_fields fs st p top objs k d :
  _path st = Some p ->
  fs p = Document (JDict top) ->
  dict_get top "prompts" (JDict []) = JDict (objects objs) ->
  NoDup objs.*1 ->
  (k, d) ∈ objs ->
  _version (state_of (_load fs st))
  = match assoc "version" top with Some v => v | None => JStr "1.0" end /\
  exists pr,
    get (state_of (_load fs st)) k = Some pr /\
    key pr = k /\
    text pr = match assoc "text" d with Some v => v | None => JStr "" end /\
    variables pr = match assoc "variables" d with Some v => v | None => JList [] end /\
    source pr = match assoc "source" d with Some v => v | None => JStr "bundled" end /\
    notes pr = match assoc "notes" d with Some v => v | None => JStr "" end.
Proof.
  intros Hp Hf Hobjs Hnd Hin.
  rewrite (load_well_formed fs st p top objs Hp Hf Hobjs).
  split; [reflexivity|].
  exists (prompt_of k d). split; [|repeat split].
  unfold get, state_of. simpl. by apply insert_all_lookup.
Qed.

Lemma loaded_prompt_fields_witness :
  exists pr,
    get (state_of (_load (holding "prompts.json" (Document sample_prompts)) sample_store))
        "analysis.sentiment" = Some pr /\
    text pr = JStr "Analyze: {text}" /\ source pr = JStr "test".
Proof.
  destruct (loaded_prompt_fields (holding "prompts.json" (Document sample_prompts))
              sample_store "prompts.json" sample_top sample_objects
              "analysis.sentiment"
              [("text", JStr "Analyze: {text}");
               ("variables", JList [JStr "text"]);
               ("source", JStr "test");
               ("notes", JStr "Sentiment analysis")])
    as [_ [pr (Hget & _ & Ht & _ & Hs & _)]].
  - reflexivity.
  - reflexivity.
  - reflexivity.
  - simpl. apply NoDup_cons. split; [|apply NoDup_singleton].
    rewrite list_elem_of_singleton. discriminate.
  - unfold sample_objects. rewrite !elem_of_cons. auto.
  - exists pr. auto.
Defined.

Lemma elem_of_keys st k : k ∈ keys st <-> is_Some (_prompts st !! k).
Proof.
  unfold keys. rewrite list_elem_of_fmap. split.
  - intros [[k' pr] [-> Hin]]. apply elem_of_map_to_list in Hin. eauto.
  - intros [pr Hpr]. exists (k, pr). split; [reflexivity|].
    by apply elem_of_map_to_list.
Qed.

Lemma elem_of_list_keys st k : k ∈ list_keys st <-> is_Some (_prompts st !! k).
Proof.
  unfold list_keys. rewrite merge_sort_Permutation. apply elem_of_keys.
Qed.

Lemma list_keys_sorted st : StronglySorted String.le (list_keys st).
Proof. apply StronglySorted_merge_sort; apply _. Qed.

Lemma list_keys_NoDup st : NoDup (list_keys st).
Proof.
  unfold list_keys. rewrite merge_sort_Permutation.
  apply NoDup_fst_map_to_list.
Qed.

(** C9.  After a load of a well-formed file, [list_keys] is the keys of
    the file's [prompts] object: in lexicographic order, each once, and no
    other; and [has] is true of exactly those keys. *)
Theorem list_keys_of_loaded fs st p top objs :
  _path st = Some p ->
  fs p = Document (JDict top) ->
  dict_get top "prompts" (JDict []) = JDict (objects objs) ->
  StronglySorted String.le (list_keys (state_of (_load fs st))) /\
  NoDup (list_keys (state_of (_load fs st))) /\
  (forall k, k ∈ list_keys (state_of (_load fs st)) <-> k ∈ (objects objs).*1) /\
  (forall k, has (state_of (_load fs st)) k = true <-> k ∈ (objects objs).*1).
Proof.
  intros Hp Hf Hobjs.
  split; [apply list_keys_sorted|]. split; [apply list_keys_NoDup|].
  assert (Hdom : forall k,
    is_Some (_prompts (state_of (_load fs st)) !! k) <-> k ∈ (objects objs).*1).
  { intros k. rewrite (load_well_formed fs st p top objs Hp Hf Hobjs).
    unfold state_of. simpl. rewrite insert_all_dom, lookup_empty.
    unfold objects. rewrite <- list_fmap_compose.
    split; [intros [?|[? ?]]; [assumption|discriminate] | by left]. }
  split; intros k.
  - rewrite elem_of_list_keys. apply Hdom.
  - unfold has. rewrite bool_decide_eq_true. apply Hdom.
Qed.

Lemma list_keys_of_loaded_witness :
  list_keys (state_of (_load (holding "prompts.json" (Document sample_prompts)) sample_store))
    = ["analysis.sentiment"; "greeting"] /\
  (forall k, has (state_of (_load (holding "prompts.json" (Document sample_prompts))
                              sample_store)) k = true
             <-> k ∈ (objects sample_objects).*1).
Proof.
  split; [vm_compute; reflexivity|].
  apply (list_keys_of_loaded (holding "prompts.json" (Document sample_prompts))
           sample_store "prompts.json" sample_top sample_objects);
    reflexivity.
Defined.

(** C2, at failing inputs.  [Prompt.format] catches [KeyError] only.  With
    a keyword argument supplied, a positional placeholder makes
    [str.format] raise [IndexError], and a single brace or an unfinished
    field makes it raise [ValueError]; both reach the caller. *)
Theorem format_raises_to_caller :
  forall (S : Type) (s : S),
    Prompt_format (mkPrompt "test" (JStr "Use {} here") (JList []) (JStr "test") (JStr ""))
                  [("name", "Alice")] s
    = (Raises IndexError, s, []) /\
    Prompt_format (mkPrompt "test" (JStr "a } b") (JList []) (JStr "test") (JStr ""))
                  [("name", "Alice")] s
    = (Raises ValueError, s, []) /\
    Prompt_format (mkPrompt "test" (JStr "Hello {name") (JList [JStr "name"]) (JStr "test") (JStr ""))
                  [("name", "Alice")] s
    = (Raises ValueError, s, []).
Proof.
  intros S s. repeat split.
Qed.

End StoreProps.

(** * Properties of [Prompt.format] *)

Module FormatProps.

Import Str FormatSpec.

Lemma append_cons x (a b : string) : String x a +:+ b = String x (a +:+ b).
Proof. reflexivity. Qed.

Lemma append_nil_l (a : string) : "" +:+ a = a.
Proof. reflexivity. Qed.

Lemma append_assoc (a b c : string) : (a +:+ b) +:+ c = a +:+ (b +:+ c).
Proof.
  induction a as [|x a IH].
  - reflexivity.
  - by rewrite !append_cons, IH.
Qed.

Lemma append_nil_r (a : string) : a +:+ "" = a.
Proof.
  induction a as [|x a IH].
  - reflexivity.
  - by rewrite append_cons, IH.
Qed.

Lemma braced_append k s : braced k +:+ s = String lbrace (k +:+ String rbrace s).
Proof.
  unfold braced. by rewrite append_cons, append_assoc, append_cons, append_nil_l.
Qed.

Lemma emit_emit_string c v o : emit c (emit_string v o) = emit_string (String c v) o.
Proof. by destruct o. Qed.

Lemma emit_string_nil o : emit_string "" o = o.
Proof. by destruct o. Qed.

(** *** The scanner on literal text and on a placeholder *)

Lemma vformat_literal kwargs a rest :
  brace_free a = true ->
  vformat kwargs None (a +:+ rest) = emit_string a (vformat kwargs None rest).
Proof.
  induction a as [|c a IH]; intros Hfree.
  - by rewrite append_nil_l, emit_string_nil.
  - simpl in Hfree. apply andb_prop in Hfree as [Hc Hfree].
    unfold is_brace in Hc. apply negb_true_iff, orb_false_elim in Hc as [Hl Hr].
    rewrite append_cons. cbn [vformat].
    rewrite Hl, Hr, (IH Hfree). apply emit_emit_string.
Qed.

Lemma plain_char_scan c :
  plain_char c = true ->
  Ascii.eqb c rbrace = false /\ Ascii.eqb c lbrace = false /\
  Ascii.eqb c "["%char || Ascii.eqb c ":"%char || Ascii.eqb c "!"%char = false /\
  Ascii.eqb c "."%char = false.
Proof.
  unfold plain_char, is_brace. intros H.
  repeat (apply andb_prop in H as [H ?]).
  apply negb_true_iff, orb_false_elim in H as [? ?].
  repeat match goal with H : negb _ = true |- _ => apply negb_true_iff in H end.
  repeat split; try assumption. by repeat (apply orb_false_intro; try assumption).
Qed.

Lemma vformat_field kwargs acc n rest :
  forall_chars plain_char n = true ->
  vformat kwargs (Some acc) (n +:+ String rbrace rest)
  = match get_field kwargs (acc +:+ n) with
    | Found v => emit_string v (vformat kwargs None rest)
    | LookupRaises e => Raises e
    | LookupUnmodelled => Unmodelled
    end.
Proof.
  revert acc. induction n as [|c n IH]; intros acc Hplain.
  - rewrite append_nil_r. reflexivity.
  - simpl in Hplain. apply andb_prop in Hplain as [Hc Hplain].
    destruct (plain_char_scan c Hc) as (Hr & Hl & Hspecial & _).
    rewrite append_cons. cbn [vformat]. rewrite Hr, Hl, Hspecial.
    rewrite (IH _ Hplain), append_assoc, append_cons, append_nil_l. reflexivity.
Qed.

Lemma exists_char_plain n :
  forall_chars plain_char n = true -> exists_char (Ascii.eqb "."%char) n = false.
Proof.
  induction n as [|c n IH]; intros Hplain; [reflexivity|].
  cbn [forall_chars] in Hplain. apply andb_prop in Hplain as [Hc Hplain].
  destruct (plain_char_scan c Hc) as (_ & _ & _ & Hdot).
  cbn [exists_char]. rewrite Ascii.eqb_sym, Hdot. by apply IH.
Qed.

Lemma not_all_chars p q n :
  (forall c, p c = true -> q c = false) ->
  exists_char p n = true -> forall_chars q n = false.
Proof.
  intros Hpq. induction n as [|c n IH]; intros Hex; [discriminate|].
  cbn [exists_char forall_chars] in *. apply orb_prop in Hex as [Hc | Hex].
  - by rewrite (Hpq c Hc).
  - rewrite (IH Hex). apply andb_false_r.
Qed.

(** A keyword name is looked up in [kwargs]. *)
Lemma get_field_keyword kwargs n :
  is_keyword n = true ->
  get_field kwargs n
  = match assoc n kwargs with
    | Some v => Found v
    | None => LookupRaises (KeyError n)
    end.
Proof.
  unfold is_keyword. intros H. apply andb_prop in H as [Hplain Hex].
  unfold get_field. rewrite (exists_char_plain n Hplain).
  destruct n as [|c n]; [discriminate|].
  assert (Hd : forall_chars is_digit (String c n) = false).
  { apply (not_all_chars (fun c => is_ascii c && negb (is_digit c))); [|exact Hex].
    intros c0 H0. by apply andb_prop in H0 as [_ ?%negb_true_iff]. }
  assert (Hu : forall_chars (fun c => is_digit c || negb (is_ascii c)) (String c n) = false).
  { apply (not_all_chars (fun c => is_ascii c && negb (is_digit c))); [|exact Hex].
    intros c0 H0. apply andb_prop in H0 as [Ha Hd0%negb_true_iff]. by rewrite Ha, Hd0. }
  rewrite Hd, Hu. reflexivity.
Qed.

Lemma vformat_hole kwargs n rest :
  is_keyword n = true ->
  vformat kwargs None (braced n +:+ rest)
  = match assoc n kwargs with
    | Some v => emit_string v (vformat kwargs None rest)
    | None => Raises (KeyError n)
    end.
Proof.
  intros Hkey. pose proof Hkey as Hkey'. unfold is_keyword in Hkey'.
  apply andb_prop in Hkey' as [Hplain Hex].
  rewrite braced_append.
  destruct n as [|c n]; [discriminate|].
  pose proof Hplain as Hc. simpl in Hc. apply andb_prop in Hc as [Hc _].
  destruct (plain_char_scan c Hc) as (_ & Hl & _).
  replace (vformat kwargs None (String lbrace (String c n +:+ String rbrace rest)))
    with (vformat kwargs (Some EmptyString) (String c n +:+ String rbrace rest))
    by (rewrite append_cons; cbn [vformat]; rewrite Ascii.eqb_refl, Hl; reflexivity).
  rewrite (vformat_field kwargs "" (String c n) rest Hplain), append_nil_l.
  rewrite (get_field_keyword kwargs _ Hkey).
  by destruct (assoc (String c n) kwargs).
Qed.

(** [str.format] on a template of literals and keyword placeholders:
    every placeholder is replaced when all have a value, and [KeyError] is
    raised otherwise. *)
Lemma vformat_render kwargs segs :
  forallb simple segs = true ->
  match vformat kwargs None (render segs) with
  | Returns r => supplied_all kwargs segs = true /\ r = partial_format kwargs segs
  | Raises e => supplied_all kwargs segs = false /\ is_KeyError e = true
  | Unmodelled => False
  end.
Proof.
  induction segs as [|seg segs IH]; intros Hsimple.
  - by split.
  - cbn [forallb] in Hsimple. apply andb_prop in Hsimple as [Hseg Hsimple].
    specialize (IH Hsimple). cbn [render supplied_all forallb partial_format].
    fold (supplied_all kwargs segs).
    destruct seg as [a|n]; cbn [render_segment substitute simple] in *.
    + rewrite (vformat_literal kwargs a _ Hseg).
      destruct (vformat kwargs None (render segs)) as [r| e |]; [|exact IH|exact IH].
      destruct IH as [-> ->]. by split.
    + rewrite (vformat_hole kwargs n _ Hseg).
      destruct (assoc n kwargs) as [v|] eqn:Hv.
      * rewrite bool_decide_eq_true_2 by eauto.
        destruct (vformat kwargs None (render segs)) as [r| e |]; [|exact IH|exact IH].
        destruct IH as [-> ->]. by split.
      * rewrite bool_decide_eq_false_2 by (intros [? ?]; discriminate). by split.
Qed.

Lemma partial_format_nil segs : partial_format [] segs = render segs.
Proof. induction segs as [|[a|n] segs IH]; simpl; by rewrite ?IH. Qed.

(** *** [str.replace] on a template *)

Lemma replace_from_skip old new a s :
  replace_from old new (String.length a) (a +:+ s) = replace_from old new 0 s.
Proof.
  induction a as [|c a IH]; [reflexivity|].
  rewrite append_cons. cbn [String.length replace_from]. exact IH.
Qed.

Lemma starts_with_append old s : starts_with old (old +:+ s) = true.
Proof.
  induction old as [|c old IH]; [by destruct s|].
  rewrite append_cons. cbn [starts_with]. by rewrite Ascii.eqb_refl.
Qed.

Lemma replace_from_match o old new s :
  replace_from (String o old) new 0 (String o old +:+ s)
  = new +:+ replace_from (String o old) new 0 s.
Proof.
  pose proof (starts_with_append (String o old) s) as Hstart.
  rewrite append_cons in *. cbn [replace_from]. rewrite Hstart.
  cbn [String.length]. rewrite Nat.sub_1_r. cbn [Nat.pred].
  by rewrite replace_from_skip.
Qed.

Lemma replace_from_other old new c s :
  starts_with old (String c s) = false ->
  replace_from old new 0 (String c s) = String c (replace_from old new 0 s).
Proof. intros Hstart. cbn [replace_from]. by rewrite Hstart. Qed.

Lemma starts_with_other_char a old c s :
  Ascii.eqb a c = false -> starts_with (String a old) (String c s) = false.
Proof. intros Hne. cbn [starts_with]. by rewrite Hne. Qed.

Lemma replace_from_literal k v a s :
  brace_free a = true ->
  replace_from (braced k) v 0 (a +:+ s) = a +:+ replace_from (braced k) v 0 s.
Proof.
  induction a as [|c a IH]; intros Hfree; [reflexivity|].
  cbn [brace_free forall_chars] in Hfree. apply andb_prop in Hfree as [Hc Hfree].
  unfold is_brace in Hc. apply negb_true_iff, orb_false_elim in Hc as [Hl _].
  rewrite !append_cons, replace_from_other, (IH Hfree); [reflexivity|].
  apply starts_with_other_char. by rewrite Ascii.eqb_sym.
Qed.

(** Between brace-free names, [{k}] starts [{n}...] only when [k = n]. *)
Lemma starts_with_name k n s :
  brace_free k = true -> brace_free n = true ->
  starts_with (k +:+ String rbrace "") (n +:+ String rbrace s) = true -> k = n.
Proof.
  revert n. induction k as [|a k IH]; intros [|c n] Hk Hn Hstart.
  - reflexivity.
  - rewrite append_nil_l, append_cons in Hstart. cbn [starts_with] in Hstart.
    cbn [brace_free forall_chars] in Hn. apply andb_prop in Hn as [Hc _].
    unfold is_brace in Hc. apply negb_true_iff, orb_false_elim in Hc as [_ Hr].
    rewrite Ascii.eqb_sym, Hr in Hstart. discriminate.
  - rewrite append_nil_l, append_cons in Hstart. cbn [starts_with] in Hstart.
    cbn [brace_free forall_chars] in Hk. apply andb_prop in Hk as [Ha _].
    unfold is_brace in Ha. apply negb_true_iff, orb_false_elim in Ha as [_ Hr].
    rewrite Hr in Hstart. discriminate.
  - rewrite !append_cons in Hstart. cbn [starts_with] in Hstart.
    cbn [brace_free forall_chars] in Hk, Hn.
    apply andb_prop in Hk as [_ Hk]. apply andb_prop in Hn as [_ Hn].
    destruct (Ascii.eqb_spec a c) as [->|]; [|discriminate].
    f_equal. by apply (IH n).
Qed.

Lemma replace_from_hole_same k v s :
  replace_from (braced k) v 0 (braced k +:+ s) = v +:+ replace_from (braced k) v 0 s.
Proof. unfold braced. apply replace_from_match. Qed.

Lemma replace_from_hole_other k v n s :
  brace_free k = true -> brace_free n = true -> n <> k ->
  replace_from (braced k) v 0 (braced n +:+ s)
  = braced n +:+ replace_from (braced k) v 0 s.
Proof.
  intros Hk Hn Hne. rewrite !braced_append.
  rewrite replace_from_other.
  - rewrite (replace_from_literal k v n _ Hn), replace_from_other; [reflexivity|].
    by apply starts_with_other_char.
  - unfold braced. cbn [starts_with]. rewrite Ascii.eqb_refl.
    destruct (starts_with (k +:+ String rbrace "") (n +:+ String rbrace s)) eqn:Hstart;
      [|reflexivity].
    destruct Hne. symmetry. by apply (starts_with_name k n s).
Qed.

Lemma replace_braced k v s : replace (braced k) v s = replace_from (braced k) v 0 s.
Proof. reflexivity. Qed.

Lemma replace_render k v segs :
  brace_free k = true ->
  forallb brace_free_segment segs = true ->
  replace (braced k) v (render segs) = render (fill k v segs).
Proof.
  intros Hk. rewrite replace_braced.
  induction segs as [|seg segs IH]; intros Hsegs; [reflexivity|].
  cbn [forallb] in Hsegs. apply andb_prop in Hsegs as [Hseg Hsegs].
  cbn [render fill map]. fold (fill k v segs).
  destruct seg as [a|n]; cbn [render_segment fill_segment brace_free_segment] in *.
  - by rewrite (replace_from_literal k v a _ Hseg), (IH Hsegs).
  - destruct (String.eqb_spec n k) as [->|Hne]; cbn [render_segment].
    + by rewrite replace_from_hole_same, (IH Hsegs).
    + by rewrite (replace_from_hole_other k v n _ Hk Hseg Hne), (IH Hsegs).
Qed.

Lemma fill_brace_free k v segs :
  brace_free v = true ->
  forallb brace_free_segment segs = true ->
  forallb brace_free_segment (fill k v segs) = true.
Proof.
  intros Hv. induction segs as [|seg segs IH]; intros Hsegs; [reflexivity|].
  cbn [forallb] in Hsegs. apply andb_prop in Hsegs as [Hseg Hsegs].
  cbn [fill map forallb]. fold (fill k v segs). rewrite (IH Hsegs), andb_true_r.
  destruct seg as [a|n]; [exact Hseg|]. cbn [fill_segment].
  by destruct (String.eqb n k).
Qed.

Lemma partial_format_fill k v kwargs segs :
  partial_format ((k, v) :: kwargs) segs = partial_format kwargs (fill k v segs).
Proof.
  induction segs as [|seg segs IH]; [reflexivity|].
  cbn [partial_format fill map]. fold (fill k v segs). rewrite IH. f_equal.
  destruct seg as [a|n]; [reflexivity|]. cbn [substitute fill_segment assoc].
  by destruct (String.eqb n k).
Qed.

(** The partial format of the [except] branch is the substitution of the
    specification, when no key and no value has a brace. *)
Lemma replace_each_render kwargs segs :
  brace_free_kwargs kwargs = true ->
  forallb brace_free_segment segs = true ->
  replace_each kwargs (render segs) = partial_format kwargs segs.
Proof.
  revert segs. induction kwargs as [|[k v] kwargs IH]; intros segs Hkw Hsegs.
  - by rewrite partial_format_nil.
  - cbn [brace_free_kwargs forallb] in Hkw. apply andb_prop in Hkw as [Hkv Hkw].
    apply andb_prop in Hkv as [Hk Hv]. cbn [fst snd] in *.
    unfold replace_each. cbn [fold_left fst snd].
    rewrite (replace_render k v segs Hk Hsegs). fold (replace_each kwargs (render (fill k v segs))).
    rewrite (IH _ Hkw (fill_brace_free k v segs Hv Hsegs)).
    by rewrite partial_format_fill.
Qed.

Lemma plain_char_not_brace c : plain_char c = true -> negb (is_brace c) = true.
Proof.
  unfold plain_char. intros H. by repeat (apply andb_prop in H as [H _]).
Qed.

Lemma simple_brace_free segs :
  forallb simple segs = true -> forallb brace_free_segment segs = true.
Proof.
  induction segs as [|seg segs IH]; intros Hsegs; [reflexivity|].
  cbn [forallb] in *. apply andb_prop in Hsegs as [Hseg Hsegs].
  rewrite (IH Hsegs), andb_true_r. destruct seg as [a|n]; [exact Hseg|].
  cbn [simple brace_free_segment] in *. unfold is_keyword in Hseg.
  apply andb_prop in Hseg as [Hplain _]. unfold brace_free.
  clear -Hplain. induction n as [|c n IH]; [reflexivity|].
  cbn [forall_chars] in *. apply andb_prop in Hplain as [Hc Hplain].
  by rewrite (plain_char_not_brace c Hc), (IH Hplain).
Qed.

(** Where the claim holds.  For a template made of brace-free literal text
    and placeholders [{name}] with keyword names, [Prompt.format] returns
    the text with each placeholder whose name has a value replaced by the
    value and every other placeholder as it is, provided every placeholder
    has a value or no supplied key or value contains a brace; it leaves
    the state alone. *)
Lemma format_partial_substitution (S : Type) (s : S) k segs vars src nts kwargs :
  forallb simple segs = true ->
  supplied_all kwargs segs = true \/ brace_free_kwargs kwargs = true ->
  result_of (Prompt_format (mkPrompt k (JStr (render segs)) vars src nts) kwargs s)
    = Returns (JStr (partial_format kwargs segs)) /\
  state_of (Prompt_format (mkPrompt k (JStr (render segs)) vars src nts) kwargs s) = s /\
  result_of (Prompt_format welcome [("name", "Alice")] s)
    = Returns (JStr "Hello Alice, welcome to {app}!") /\
  result_of (Prompt_format welcome [("name", "Alice"); ("app", "MyApp")] s)
    = Returns (JStr "Hello Alice, welcome to MyApp!").
Proof.
  intros Hsimple Hkw. split; [|split; [|split; reflexivity]].
  - unfold Prompt_format. destruct kwargs as [|kv kwargs].
    + by rewrite partial_format_nil.
    + cbn [text str_format]. unfold Str.format.
      pose proof (vformat_render (kv :: kwargs) segs Hsimple) as Hrun.
      destruct (vformat (kv :: kwargs) None (render segs)) as [r|e|]; [| |done].
      * destruct Hrun as [_ ->]. reflexivity.
      * destruct Hrun as [Hmissing He]. destruct e; try discriminate.
        destruct Hkw as [Hall|Hfree]; [congruence|].
        unfold result_of, Eff.bind, log, ret. cbn [fst].
        by rewrite (replace_each_render _ _ Hfree (simple_brace_free _ Hsimple)).
  - unfold Prompt_format. destruct kwargs as [|kv kwargs]; [reflexivity|].
    cbn [text str_format]. unfold Str.format.
    pose proof (vformat_render (kv :: kwargs) segs Hsimple) as Hrun.
    destruct (vformat (kv :: kwargs) None (render segs)) as [r|e|]; [reflexivity| |done].
    destruct Hrun as [_ He]. by destruct e.
Qed.

(** C4, at failing inputs.  With the text ["{a} and {z}"] and the
    keywords [a="{b}"], [b="X"], [str.format] raises [KeyError] for [z],
    and the partial format then substitutes one keyword after the other
    with [str.replace]: the value put in for [{a}] is itself a placeholder
    of a supplied name and is substituted again.  The call returns
    ["X and {z}"], where replacing each placeholder that has a value by
    that value gives ["{b} and {z}"].  With every placeholder supplied the
    same value is left alone: ["{a}"] gives ["{b}"].  With the text
    ["{} and {name}"] and [name="Alice"] the call raises [IndexError]:
    the placeholder with a value is not replaced and the other one does
    not survive.  On the text of the specification the call does what the
    claim says. *)
Theorem format_not_best_effort :
  forall (S : Type) (s : S),
    Prompt_format (mkPrompt "test" (JStr "{a} and {z}") (JList []) (JStr "test") (JStr ""))
                  [("a", "{b}"); ("b", "X")] s
    = (Returns (JStr "X and {z}"), s, [(WARNING, "Missing format key")]) /\
    render [Hole "a"; Lit " and "; Hole "z"] = "{a} and {z}" /\
    partial_format [("a", "{b}"); ("b", "X")] [Hole "a"; Lit " and "; Hole "z"]
    = "{b} and {z}" /\
    Prompt_format (mkPrompt "test" (JStr "{a}") (JList []) (JStr "test") (JStr ""))
                  [("a", "{b}"); ("b", "X")] s
    = (Returns (JStr "{b}"), s, []) /\
    Prompt_format (mkPrompt "test" (JStr "{} and {name}") (JList []) (JStr "test") (JStr ""))
                  [("name", "Alice")] s
    = (Raises IndexError, s, []) /\
    Prompt_format welcome [("name", "Alice")] s
    = (Returns (JStr "Hello Alice, welcome to {app}!"), s,
       [(WARNING, "Missing format key")]).
Proof.
  intros S s. repeat split.
Qed.

End FormatProps.

(** * How the calls of the usage store run *)

Module ObserverRuns.

Import Observer ObserverInv.

Lemma existsb_id (e : UsageLog) (rows : list stored_row) :
  existsb (fun r' => String.eqb (r_id r') (id e)) rows = true <-> id e ∈ map r_id rows.
Proof.
  rewrite existsb_exists, list_elem_of_In, in_map_iff. split.
  - intros (r & Hr & Heq). apply String.eqb_eq in Heq. eauto.
  - intros (r & Heq & Hr). exists r. split; [exact Hr | by apply String.eqb_eq].
Qed.

(** What [UsageStore.log] does, case by case: it raises and leaves the
    table as it is, or it returns and has added the row of the entry. *)
Lemma log_entry_cases json_dumps e st :
  (exists x,
     log_entry json_dumps e st = (Raises x, st, []) /\
     (db_ok st = false /\ x = db_error st \/
      json_dumps (variables_used e) = Refused x \/
      db_ok st = true /\ id e ∈ map r_id (usage st) /\ x = IntegrityError)) \/
  (exists s,
     json_dumps (variables_used e) = Text s /\ db_ok st = true /\ fresh_id e st /\
     log_entry json_dumps e st
     = (Returns tt, set_usage (usage st ++ [stored json_dumps e]) st, [])).
Proof.
  unfold log_entry, open_db, connect, Eff.bind, get_state, lift, raise, ret, modify,
    fresh_id, stored, dumped.
  cbn.
  destruct (db_ok st) eqn:Hok, (db_opens st) eqn:Hop,
    (json_dumps (variables_used e)) as [s|x] eqn:Hd; cbn; rewrite ?Hok; cbn.
  all: try (left; eexists; split; [reflexivity|]; by auto).
  all: destruct (existsb (fun r' => String.eqb (r_id r') (id e)) (usage st)) eqn:Hex; cbn.
  all: try (left; eexists; split; [reflexivity|]; right; right;
            split; [reflexivity|]; split; [by apply existsb_id | reflexivity]).
  all: right; exists s; split; [reflexivity|]; split; [reflexivity|]; split; [|reflexivity].
  all: intros Hin; apply existsb_id in Hin; congruence.
Qed.


(** [log] on a database that cannot be used, or on an id that is there. *)
Lemma log_entry_fails json_dumps e st :
  db_ok st = false \/ id e ∈ map r_id (usage st) ->
  exists x, log_entry json_dumps e st = (Raises x, st, []).
Proof.
  intros Hfail.
  destruct (log_entry_cases json_dumps e st)
    as [(x & Hrun & _) | (s & _ & Hok & Hfresh & _)]; [eauto|].
  destruct Hfail as [Hbad | Hdup]; [congruence | by destruct Hfresh].
Qed.

End ObserverRuns.

(** * Properties of [log_usage] *)

Module FacadeProps.

Import Observer Facade FacadeSpec EffProps.

(** The implementation of SHA-256 on the test vectors of the standard (the
    empty message and "abc") and on a message of two blocks. *)
Example sha256_empty :
  SHA256.hexdigest ""
  = "e3b0c44298fc1c149afbf4c8996fb92427ae41e4649b934ca495991b7852b855".
Proof. vm_compute. reflexivity. Qed.

Example sha256_abc :
  SHA256.hexdigest "abc"
  = "ba7816bf8f01cfea414140de5dae2223b00361a396177a9cb410ff61f20015ad".
Proof. vm_compute. reflexivity. Qed.

Example sha256_two_blocks :
  SHA256.hexdigest "abcdbcdecdefdefgefghfghighijhijkijkljklmklmnlmnomnopnopq"
  = "248d6a61d20638b8e5c026930c3e6039a33ce45964ff2167f6ecedd419db06c1".
Proof. vm_compute. reflexivity. Qed.

Lemma hex_digit_is_hex x : is_hex (SHA256.hex_digit x) = true.
Proof.
  unfold SHA256.hex_digit.
  pose proof (Z.mod_pos_bound x 16 ltac:(lia)) as Hd.
  assert (Hcases : x mod 16 = 0 \/ x mod 16 = 1 \/ x mod 16 = 2 \/ x mod 16 = 3 \/
                   x mod 16 = 4 \/ x mod 16 = 5 \/ x mod 16 = 6 \/ x mod 16 = 7 \/
                   x mod 16 = 8 \/ x mod 16 = 9 \/ x mod 16 = 10 \/ x mod 16 = 11 \/
                   x mod 16 = 12 \/ x mod 16 = 13 \/ x mod 16 = 14 \/ x mod 16 = 15)
    by lia.
  repeat (destruct Hcases as [-> | Hcases]; [reflexivity|]).
  rewrite Hcases. reflexivity.
Qed.

(** The first twelve characters of a digest are twelve hexadecimal
    digits. *)
Lemma short_hash_hex t :
  String.length (String.substring 0 12 (SHA256.hexdigest t)) = 12%nat /\
  Str.forall_chars is_hex (String.substring 0 12 (SHA256.hexdigest t)) = true.
Proof.
  unfold SHA256.hexdigest, SHA256.hex_of_state, SHA256.hex8.
  generalize (SHA256.digest (SHA256.encode t)). intros s.
  cbn [String.substring Str.forall_chars String.length].
  rewrite !hex_digit_is_hex. split; reflexivity.
Qed.

Lemma get_prompt_no_kwargs w k :
  exists w' logs,
    get_prompt k [] w = (Returns (effective_text w k None), w', logs) /\
    _usage_store w' = _usage_store w /\ default_db w' = default_db w.
Proof.
  unfold get_prompt, effective_text, get_store, Eff.bind at 1.
  unfold Eff.bind at 1. simpl.
  destruct (_store w) as [st|] eqn:Hst; simpl.
  - destruct (PromptStore_.get st k) as [p|]; simpl; eauto.
  - unfold Eff.bind at 1. simpl. eauto.
Qed.

(** What [log_usage] does before it enters its [try]. *)
Lemma log_usage_entry_run env w k stg pt mdl ses vars ok lat nts :
  exists w' logs,
    log_usage_entry env k stg pt mdl ses vars ok lat nts w
    = (match resolve_hash (effective_text w k pt) with
       | Returns h =>
           Returns (mkUsageLog (uuid4 env) (utcnow env) k h stg mdl ses
                      (JDict (default [] vars)) ok lat nts)
       | Raises e => Raises e
       | Unmodelled => Unmodelled
       end, w', logs) /\
    _usage_store w' = _usage_store w /\ default_db w' = default_db w.
Proof.
  unfold log_usage_entry. destruct pt as [t|].
  - unfold Eff.bind at 1. simpl. unfold Eff.bind at 1. simpl.
    destruct (resolve_hash (JStr t)); simpl; eauto.
  - destruct (get_prompt_no_kwargs w k) as (w' & logs & Hrun & Hu & Hd).
    unfold Eff.bind at 1. rewrite Hrun. unfold Eff.bind at 1.
    destruct (resolve_hash (effective_text w k None)); simpl; eauto.
Qed.

Lemma resolve_hash_cases v :
  (truthy v = false /\ resolve_hash v = Returns "unknown") \/
  (exists t, v = JStr t /\ t <> "" /\ Str.has_surrogate t = false /\
             resolve_hash v = Returns (String.substring 0 12 (SHA256.hexdigest t))) \/
  (exists t, v = JStr t /\ Str.has_surrogate t = true /\
             resolve_hash v = Raises UnicodeEncodeError) \/
  (truthy v = true /\ (forall t, v <> JStr t) /\ resolve_hash v = Raises AttributeError).
Proof.
  unfold resolve_hash. destruct (truthy v) eqn:Htr; [|by left].
  right. destruct v as [| b | q | t | l | d];
    try (right; right; split; [reflexivity|]; split; [discriminate | reflexivity]).
  cbn [_hash_prompt]. destruct (Str.has_surrogate t) eqn:Hs.
  - right. left. exists t. by repeat split.
  - left. exists t. split; [reflexivity|]. split; [intros ->; discriminate|].
    split; [exact Hs | reflexivity].
Qed.

(** C10.  The hash of an entry built by [log_usage] is the sentinel or the
    first twelve hexadecimal digits of the SHA-256 digest of the text; it
    is the sentinel whenever the text is empty, as it is when the key is
    not in the active store and when the prompt found has an empty text. *)
Theorem prompt_hash_of_built_entry env w k stg pt mdl ses vars ok lat nts entry w' logs :
  log_usage_entry env k stg pt mdl ses vars ok lat nts w = (Returns entry, w', logs) ->
  (prompt_hash entry = "unknown" \/
   exists t, effective_text w k pt = JStr t /\ t <> "" /\
             prompt_hash entry = String.substring 0 12 (SHA256.hexdigest t) /\
             String.length (prompt_hash entry) = 12%nat /\
             Str.forall_chars is_hex (prompt_hash entry) = true) /\
  (effective_text w k pt = JStr "" -> prompt_hash entry = "unknown") /\
  (pt = None ->
   (forall st, _store w = Some st -> PromptStore_.get st k = None) ->
   effective_text w k pt = JStr "" /\ prompt_hash entry = "unknown") /\
  (pt = None ->
   (exists st p, _store w = Some st /\ PromptStore_.get st k = Some p /\ text p = JStr "") ->
   effective_text w k pt = JStr "" /\ prompt_hash entry = "unknown").
Proof.
  intros Hrun.
  destruct (log_usage_entry_run env w k stg pt mdl ses vars ok lat nts)
    as (w1 & logs1 & Hrun1 & _). rewrite Hrun in Hrun1.
  assert (Hempty : effective_text w k pt = JStr "" -> prompt_hash entry = "unknown").
  { intros Heff. rewrite Heff in Hrun1. simpl in Hrun1. by inversion Hrun1. }
  split; [|split; [exact Hempty|split]].
  - destruct (resolve_hash_cases (effective_text w k pt))
      as [[_ Hh] | [(t & Heff & Ht & _ & Hh) | [(t & _ & _ & Hh) | (_ & _ & Hh)]]];
      rewrite Hh in Hrun1; inversion Hrun1; subst; cbn [prompt_hash].
    + by left.
    + right. exists t. pose proof (short_hash_hex t) as [? ?]. by repeat split.
  - intros -> Habsent.
    assert (Heff : effective_text w k None = JStr "").
    { unfold effective_text. destruct (_store w) as [st|]; [|reflexivity].
      by rewrite (Habsent st eq_refl). }
    split; [exact Heff | by apply Hempty].
  - intros -> (st & p & Hst & Hget & Htext).
    assert (Heff : effective_text w k None = JStr "").
    { unfold effective_text. by rewrite Hst, Hget. }
    split; [exact Heff | by apply Hempty].
Qed.

Lemma prompt_hash_of_built_entry_witness :
  exists entry w' logs,
    log_usage_entry sample_env "greeting" "chat" None (Some "gpt-4") None None true 150 None
                    sample_world = (Returns entry, w', logs) /\
    prompt_hash entry = "87566760931a".
Proof.
  eexists _, _, _. split; [vm_compute; reflexivity|].
  destruct (prompt_hash_of_built_entry sample_env sample_world "greeting" "chat" None
              (Some "gpt-4") None None true 150%Q None _ _ _ eq_refl) as [_ _].
  vm_compute. reflexivity.
Defined.

(** [log] hands nothing to the logger, and stays inside the model. *)
Lemma log_entry_silent json_dumps e u :
  logs_of (log_entry json_dumps e u) = [] /\
  result_of (log_entry json_dumps e u) <> Unmodelled.
Proof.
  destruct (ObserverRuns.log_entry_cases json_dumps e u)
    as [(x & -> & _) | (s & _ & _ & _ & ->)]; by split.
Qed.

(** [_get_store().method(...)] on a process that has, or can create, its
    usage store, and on one that cannot. *)
Lemma on_usage_store_run {A} (m : M UsageStore A) w u :
  usage_store_of w = Some u ->
  on_usage_store m w
  = (result_of (m u), set_usage_store (Some (state_of (m u))) w, logs_of (m u)).
Proof.
  unfold usage_store_of, on_usage_store, _get_store. intros Hu.
  unfold Eff.bind at 1. rewrite bind_get_state.
  destruct (_usage_store w) as [u0|].
  - injection Hu as ->. cbn [ret]. by destruct (m u) as [[r u'] l].
  - rewrite Hu, bind_modify. cbn [ret]. by destruct (m u) as [[r u'] l].
Qed.

Lemma on_usage_store_none {A} (m : M UsageStore A) w :
  usage_store_of w = None -> on_usage_store m w = (Raises OSError, w, []).
Proof.
  unfold usage_store_of, on_usage_store, _get_store. intros Hu.
  unfold Eff.bind at 1. rewrite bind_get_state.
  destruct (_usage_store w) as [u0|]; [discriminate|]. by rewrite Hu.
Qed.

(** The guarded part of [log_usage] always returns.  It says in the log
    which way it went: the debug record when the entry was stored and
    forwarded, the warning otherwise. *)
Lemma guarded_log_run json_dumps env entry w :
  exists w',
    try_except
      (Eff.bind (on_usage_store (log_entry json_dumps entry)) (fun _ =>
       Eff.bind (_send_to_langfuse env entry) (fun _ =>
       log DEBUG "[Observer] Logged usage")))
      (fun e => log WARNING "[Observer] Failed to log usage") w
    = (Returns tt, w',
       match usage_store_of w with
       | Some u =>
           match result_of (log_entry json_dumps entry u), forward env with
           | Returns _, None => [logged]
           | _, _ => [failed]
           end
       | None => [failed]
       end) /\
    _usage_store w'
    = (match usage_store_of w with
       | Some u => Some (state_of (log_entry json_dumps entry u))
       | None => None
       end) /\
    _store w' = _store w.
Proof.
  unfold try_except. unfold Eff.bind at 1.
  destruct (usage_store_of w) as [u|] eqn:Hu.
  - rewrite (on_usage_store_run _ w u Hu).
    destruct (log_entry_silent json_dumps entry u) as [Hlogs Hres]. rewrite Hlogs.
    destruct (result_of (log_entry json_dumps entry u)) as [[]| |]; [| |done].
    + unfold _send_to_langfuse, Eff.bind, log, ret, raise.
      destruct (forward env); cbn; eexists; (split; [reflexivity|]); by split.
    + cbn. eexists; (split; [reflexivity|]); by split.
  - rewrite (on_usage_store_none _ w Hu). cbn.
    eexists; (split; [reflexivity|]). split; [|reflexivity].
    unfold usage_store_of in Hu. by destruct (_usage_store w).
Qed.

(** Before its [try], [log_usage] logs nothing but the warning of
    [get_prompt]. *)
Lemma log_usage_entry_logs env w k stg pt mdl ses vars ok lat nts r :
  In r (logs_of (log_usage_entry env k stg pt mdl ses vars ok lat nts w)) ->
  r = (WARNING, "Prompt not found").
Proof.
  unfold log_usage_entry, get_prompt, get_store, Prompt_format, Eff.bind, get_state,
    modify, ret, lift, log, logs_of.
  destruct pt as [t|]; cbn.
  - destruct (resolve_hash (JStr t)); cbn; tauto.
  - destruct (_store w) as [st|]; cbn.
    + destruct (PromptStore_.get st k) as [p|]; cbn.
      * destruct (resolve_hash (text p)); cbn; tauto.
      * intros [<- | []]. reflexivity.
    + intros [<- | []]. reflexivity.
Qed.

(** [log_usage], given the hash it resolves. *)
Lemma log_usage_run json_dumps env w k stg pt mdl ses vars ok lat nts h :
  resolve_hash (effective_text w k pt) = Returns h ->
  let e := built env k h stg mdl ses vars ok lat nts in
  exists w' logs,
    log_usage json_dumps env k stg pt mdl ses vars ok lat nts w
    = (Returns (uuid4 env), w', logs) /\
    _usage_store w'
    = (match usage_store_of w with
       | Some u => Some (state_of (log_entry json_dumps e u))
       | None => None
       end) /\
    (In logged logs <-> persisted json_dumps w e /\ forward env = None) /\
    (In failed logs <-> ~ (persisted json_dumps w e /\ forward env = None)).
Proof.
  intros Hh e. unfold built in e. unfold log_usage.
  destruct (log_usage_entry_run env w k stg pt mdl ses vars ok lat nts)
    as (w1 & logs1 & Hrun & Hus & Hdb).
  rewrite Hh in Hrun. fold e in Hrun. unfold Eff.bind at 1. rewrite Hrun.
  assert (Hu1 : usage_store_of w1 = usage_store_of w).
  { unfold usage_store_of. by rewrite Hus, Hdb. }
  destruct (guarded_log_run json_dumps env e w1) as (w2 & Hg & Hstore & _).
  unfold Eff.bind at 1. rewrite Hg. rewrite Hu1 in Hstore |- *.
  cbn [ret id]. eexists _, _. split; [reflexivity|]. split; [exact Hstore|].
  assert (Hlogs1 : ~ In logged logs1 /\ ~ In failed logs1).
  { pose proof (log_usage_entry_logs env w k stg pt mdl ses vars ok lat nts) as Hl.
    rewrite Hrun in Hl. cbn [logs_of snd] in Hl.
    split; intros Hin; apply Hl in Hin; discriminate Hin. }
  destruct Hlogs1 as [Hnl Hnf].
  assert (Hway : (persisted json_dumps w e /\ forward env = None) \/
                 ~ (persisted json_dumps w e /\ forward env = None)).
  { unfold persisted. destruct (usage_store_of w) as [u|].
    - destruct (result_of (log_entry json_dumps e u)) as [[]| |] eqn:Hres;
        [destruct (forward env); [right | left] | right | right].
      + intros [_ Hc]. discriminate Hc.
      + split; [eauto | reflexivity].
      + intros [(u' & [= <-] & Hc) _]. congruence.
      + intros [(u' & [= <-] & Hc) _]. congruence.
    - right. intros [(u' & Hc & _) _]. discriminate Hc. }
  assert (Hlogs2 :
    (persisted json_dumps w e /\ forward env = None ->
     match usage_store_of w with
     | Some u =>
         match result_of (log_entry json_dumps e u), forward env with
         | Returns _, None => [logged]
         | _, _ => [failed]
         end
     | None => [failed]
     end = [logged]) /\
    (~ (persisted json_dumps w e /\ forward env = None) ->
     match usage_store_of w with
     | Some u =>
         match result_of (log_entry json_dumps e u), forward env with
         | Returns _, None => [logged]
         | _, _ => [failed]
         end
     | None => [failed]
     end = [failed])).
  { unfold persisted. split.
    - intros [(u & -> & ->) ->]. reflexivity.
    - intros Hno. destruct (usage_store_of w) as [u|]; [|reflexivity].
      destruct (result_of (log_entry json_dumps e u)) as [[]| |] eqn:Hres; try reflexivity.
      destruct (forward env); [reflexivity|]. destruct Hno. split; [eauto | reflexivity]. }
  destruct Hlogs2 as [Hyes Hno].
  rewrite !in_app_iff. unfold logged, failed in *.
  destruct Hway as [Hw | Hw].
  - rewrite (Hyes Hw). cbn. split; split; try tauto.
    + intros [? | [[Hc | []] | []]]; [tauto | discriminate Hc].
  - rewrite (Hno Hw). cbn. split; split; try tauto.
    + intros [? | [[Hc | []] | []]]; [tauto | discriminate Hc].
Qed.

(** A text that can be hashed is hashed, or gets the sentinel. *)
Lemma hashable_resolves v :
  hashable v = true -> exists h, resolve_hash v = Returns h.
Proof.
  unfold hashable. intros Htext.
  destruct (resolve_hash_cases v)
    as [[_ Hh] | [(t & _ & _ & _ & Hh) | [(t & Heq & Hs & _) | (Htr & Hno & _)]]]; eauto.
  - rewrite Heq in Htext. cbn in Htext. rewrite Hs in Htext.
    destruct (String.eqb_spec t "") as [Ht|_]; [|discriminate Htext].
    rewrite Ht in Hs. discriminate Hs.
  - rewrite Htr in Htext. cbn [negb orb] in Htext.
    destruct v as [| | |t| |]; try discriminate Htext.
    by destruct (Hno t).
Qed.

(** C3, as stated, fails: the hash is resolved before the [try].  In a
    process whose prompts file gives the text of prompt [k] as the number
    5, [get_prompt] hands that number to [_hash_prompt], whose [encode]
    raises [AttributeError] to the caller of [log_usage]. *)
Lemma log_usage_raises_on_number_text :
  result_of (log_usage dumps_empty sample_env "k" "chat" None None None None true 0 None
                       number_text_world)
  = Raises AttributeError.
Proof. vm_compute. reflexivity. Qed.

(** C3, amended.  When the text to hash is false, or is a string that
    holds no lone surrogate (as it is when the caller passes such a text,
    and when the prompts file gives such a text for the key), [log_usage]
    returns the id it generated, whatever the state of the usage store.
    It writes the debug record, and no warning of failure, exactly when
    the entry was stored and forwarded; when the store cannot be created,
    the insertion fails (a database that cannot be used, a duplicate id,
    variables that cannot be serialised) or forwarding fails, the
    exception is caught and the warning is written instead. *)
Theorem log_usage_returns_id json_dumps env w k stg pt mdl ses vars ok lat nts :
  hashable (effective_text w k pt) = true ->
  exists h w' logs,
    resolve_hash (effective_text w k pt) = Returns h /\
    log_usage json_dumps env k stg pt mdl ses vars ok lat nts w
    = (Returns (uuid4 env), w', logs) /\
    (persisted json_dumps w (built env k h stg mdl ses vars ok lat nts) /\
     forward env = None ->
     In logged logs /\ ~ In failed logs) /\
    (~ (persisted json_dumps w (built env k h stg mdl ses vars ok lat nts) /\
        forward env = None) ->
     In failed logs /\ ~ In logged logs).
Proof.
  intros Htext. destruct (hashable_resolves _ Htext) as [h Hh].
  destruct (log_usage_run json_dumps env w k stg pt mdl ses vars ok lat nts h Hh)
    as (w' & logs & Hrun & _ & Hlogged & Hfailed).
  exists h, w', logs. split; [exact Hh|]. split; [exact Hrun|]. split.
  - intros Hok. split; [by apply Hlogged|]. rewrite Hfailed. tauto.
  - intros Hno. split; [by apply Hfailed|]. rewrite Hlogged. exact Hno.
Qed.

Lemma log_usage_returns_id_witness :
  exists h w' logs,
    resolve_hash (effective_text sample_world "greeting" None) = Returns h /\
    log_usage dumps_empty sample_env "greeting" "chat" None (Some "gpt-4") None None
              true 150 None sample_world
    = (Returns "0b5b2c4e-7f0a-4e0e-9d39-0c1f5a3e8a11", w', logs) /\
    In failed logs /\ ~ In logged logs.
Proof.
  destruct (log_usage_returns_id dumps_empty sample_env sample_world "greeting" "chat" None
              (Some "gpt-4") None None true 150%Q None)
    as (h & w' & logs & Hh & Hrun & _ & Hfail).
  - vm_compute. reflexivity.
  - exists h, w', logs. split; [exact Hh|]. split; [exact Hrun|]. apply Hfail.
    intros [(u & Hu & Hres) _]. injection Hu as <-. discriminate Hres.
Defined.

End FacadeProps.

(** * Properties of the rounding of doubles *)

Module Float64Props.

Import Float64.

Local Open Scope Z_scope.






Local Open Scope Q_scope.




End Float64Props.

(** * Properties of the usage store *)

Module ObserverProps.

Import Observer ObserverSpec ObserverInv ObserverRuns Float64 Float64Props.

Local Open Scope Q_scope.

Lemma Qlen_pos {A} (l : list A) : l <> [] -> 0 < Qlen l.
Proof.
  intros Hl. unfold Qlen. destruct l as [|x l]; [done|].
  unfold Qlt, inject_Z. cbn [Qnum Qden length]. lia.
Qed.

Lemma filter_length_le {A} (p : A -> bool) (l : list A) :
  (length (List.filter p l) <= length l)%nat.
Proof.
  induction l as [|x l IH]; cbn [List.filter]; [lia|].
  destruct (p x); cbn [length]; lia.
Qed.




Lemma get_stats_run st k :
  db_ok st = true ->
  get_stats k st
  = (Returns
       (mkStats k (length (rows_of k st))
          (if (0 <? length (rows_of k st))%nat
           then percent (length (succeeded_of k st)) (length (rows_of k st))
           else 0)
          (or_zero (sql_avg (sqlite st) (AvgLatency k)
                            (map r_latency_ms (measured_of k st))))
          (stage_counts (sqlite st) (StageCounts k) (rows_of k st))
          (sql_limit 10
             (map (fun r => mkRecent (r_timestamp r) (r_stage r) (r_model r) (r_success r))
                  (order_rows (sqlite st) (RecentOfKey k) (rows_of k st))))),
     st, []).
Proof.
  intros Hok. unfold get_stats, connect, Eff.bind, get_state. simpl.
  rewrite Hok. reflexivity.
Qed.






























End ObserverProps.

(** * Further properties of the prompt store *)

Module StoreExtra.

Import PromptStore_ StoreSpec StoreProps StoreInv EffProps.

(** *** Equations of the effects *)

Lemma make_prompt_cases k prompt_data :
  (exists d, prompt_data = JDict d /\ make_prompt k prompt_data = Returns (prompt_of k d)) \/
  make_prompt k prompt_data = Raises AttributeError.
Proof. destruct prompt_data; eauto. Qed.

(** The loop of [_load] returns or raises, keeps the path and the version,
    and stores every record under its own key. *)
Lemma load_items_outcome its st :
  exists r st',
    load_items its st = (r, st', []) /\
    (r = Returns tt \/ exists e, r = Raises e) /\
    _path st' = _path st /\ _version st' = _version st /\
    (keyed st -> keyed st').
Proof.
  revert st. induction its as [|[k prompt_data] its IH]; intros st.
  - exists (Returns tt), st. cbn. eauto 10.
  - cbn [load_items].
    destruct (make_prompt_cases k prompt_data) as [(d & -> & ->) | ->].
    + rewrite bind_lift_returns, bind_modify.
      destruct (IH (set_prompts (<[k:=prompt_of k d]> (_prompts st)) st))
        as (r & st' & -> & Hr & Hp & Hv & Hkey).
      exists r, st'. repeat split; try assumption.
      intros Hst. apply Hkey. intros k' p'. cbn. rewrite lookup_insert.
      case_decide; [intros [= <-]; by subst | apply Hst].
    + exists (Raises AttributeError), st. eauto 10.
Qed.

(** What [_load] does, case by case. *)
Lemma load_cases fs st :
  match _path st with
  | None => _load fs st = (Returns tt, st, [])
  | Some p =>
      match fs p with
      | Inaccessible => _load fs st = (Raises OSError, st, [])
      | Absent => _load fs st = (Returns tt, st, [(WARNING, "Prompts file not found")])
      | Unreadable | Malformed =>
          _load fs st = (Returns tt, st, [(ERROR, "Failed to load prompts")])
      | Document (JDict top) =>
          match dict_get top "prompts" (JDict []) with
          | JDict its =>
              exists r st',
                load_items its
                  (mkPromptStore (Some p) ∅ (dict_get top "version" (JStr "1.0")))
                = (r, st', []) /\
                ((r = Returns tt /\
                  _load fs st = (Returns tt, st', [(INFO, "Loaded prompts")])) \/
                 ((exists e, r = Raises e) /\
                  _load fs st = (Returns tt, st', [(ERROR, "Failed to load prompts")])))
          | _ =>
              _load fs st
              = (Returns tt,
                 mkPromptStore (Some p) ∅ (dict_get top "version" (JStr "1.0")),
                 [(ERROR, "Failed to load prompts")])
          end
      | Document _ =>
          _load fs st = (Returns tt, st, [(ERROR, "Failed to load prompts")])
      end
  end.
Proof.
  unfold _load. rewrite bind_get_state.
  destruct (_path st) as [p|] eqn:Hp; [|reflexivity].
  destruct (fs p) as [| | |data|]; try reflexivity.
  destruct data as [| | | | |top]; try reflexivity.
  assert (Hst : set_prompts ∅ (set_version (dict_get top "version" (JStr "1.0")) st)
                = mkPromptStore (Some p) ∅ (dict_get top "version" (JStr "1.0"))).
  { unfold set_prompts, set_version. cbn. by rewrite Hp. }
  unfold try_except, load_body, read_json.
  rewrite bind_ret. cbn [Py.get]. rewrite bind_lift_returns, bind_modify, bind_lift_returns.
  rewrite bind_modify, Hst.
  destruct (dict_get top "prompts" (JDict [])) as [| | | | |its]; try reflexivity.
  cbn [Py.items]. rewrite bind_lift_returns.
  destruct (load_items_outcome its
              (mkPromptStore (Some p) ∅ (dict_get top "version" (JStr "1.0"))))
    as (r & st' & Hrun & Hr & _).
  unfold Eff.bind. rewrite Hrun. exists r, st'. split; [reflexivity|].
  destruct Hr as [-> | [e ->]]; [left | right]; cbn; eauto.
Qed.

(** [_load] returns, unless [Path.exists] raises. *)
Lemma load_returns_or_inaccessible fs st :
  (exists p, _path st = Some p /\ fs p = Inaccessible /\
             _load fs st = (Raises OSError, st, [])) \/
  ((forall p, _path st = Some p -> fs p <> Inaccessible) /\
   result_of (_load fs st) = Returns tt /\
   (length (logs_of (_load fs st)) <= 1)%nat).
Proof.
  pose proof (load_cases fs st) as H.
  destruct (_path st) as [p|] eqn:Hp;
    [|right; rewrite H; cbn; split; [done | split; [reflexivity | lia]]].
  destruct (fs p) as [| | |data|] eqn:Hf; [right| right | right | right | left; eauto].
  all: split; [intros p0 [= <-]; by rewrite Hf|].
  1-3: rewrite H; cbn; split; [reflexivity | lia].
  destruct data as [| | | | |top]; try (rewrite H; cbn; split; [reflexivity | lia]).
  destruct (dict_get top "prompts" (JDict [])) as [| | | | |its];
    try (rewrite H; cbn; split; [reflexivity | lia]).
  destruct H as (r & st' & _ & [[_ ->] | [_ ->]]); cbn; split; (reflexivity || lia).
Qed.

(** X1.  [_load] raises only what [Path.exists] raises: on a path the
    file system does not let it test, the call ends in [OSError], with the
    store as it was and nothing logged; on every other file and store it
    returns.  It hands the logger at most one record. *)
Theorem load_raises_only_from_exists fs st :
  (length (logs_of (_load fs st)) <= 1)%nat /\
  ((exists p, _path st = Some p /\ fs p = Inaccessible) ->
   _load fs st = (Raises OSError, st, [])) /\
  (~ (exists p, _path st = Some p /\ fs p = Inaccessible) ->
   result_of (_load fs st) = Returns tt).
Proof.
  destruct (load_returns_or_inaccessible fs st)
    as [(p & Hp & Hf & Hrun) | (Hacc & Hres & Hlogs)].
  - rewrite Hrun. cbn. split; [lia|]. split; [done|]. intros Hn. destruct Hn. eauto.
  - split; [exact Hlogs|]. split; [|done].
    intros (p & Hp & Hf). by destruct (Hacc p Hp).
Qed.

(** X2.  A load that fails before any entry is processed (the file is
    missing or unreadable, is not JSON, or is JSON but not an object)
    leaves the whole store as it was: path, mapping and version. *)
Theorem load_failure_before_processing_keeps_store fs st p :
  _path st = Some p ->
  fs p = Absent \/ fs p = Unreadable \/ fs p = Malformed \/
  (exists data, fs p = Document data /\ forall top, data <> JDict top) ->
  state_of (_load fs st) = st /\ result_of (_load fs st) = Returns tt.
Proof.
  intros Hp Hf. pose proof (load_cases fs st) as H. rewrite Hp in H.
  destruct Hf as [Hf | [Hf | [Hf | (data & Hf & Hdata)]]]; rewrite Hf in H.
  1-3: by rewrite H.
  destruct data as [| | | | |top]; try by rewrite H.
  by destruct (Hdata top).
Qed.

Lemma load_failure_before_processing_keeps_store_witness :
  state_of (_load list_file sample_store) = sample_store.
Proof.
  apply (load_failure_before_processing_keeps_store list_file sample_store "prompts.json").
  - reflexivity.
  - right. right. right. eexists. split; [reflexivity | discriminate].
Defined.

(** On a file that holds a JSON object, what the store held does not
    matter to what it holds after the load. *)
Lemma load_object_forgets fs st p top :
  _path st = Some p ->
  fs p = Document (JDict top) ->
  state_of (_load fs st) = state_of (_load fs (mkPromptStore (Some p) ∅ (JStr "1.0"))).
Proof.
  intros Hp Hf.
  pose proof (load_cases fs st) as H1.
  pose proof (load_cases fs (mkPromptStore (Some p) ∅ (JStr "1.0"))) as H2.
  cbn [_path] in H2. rewrite Hp in H1. rewrite Hf in H1, H2.
  destruct (dict_get top "prompts" (JDict [])) as [| | | | |its];
    try (rewrite H1; destruct (_load fs (mkPromptStore (Some p) ∅ (JStr "1.0")))
           as [[r2 st2] l2]; by inversion H2).
  destruct H1 as (r1 & st1 & Hrun1 & H1), H2 as (r2 & st2 & Hrun2 & H2).
  rewrite Hrun1 in Hrun2. inversion Hrun2; subst r2 st2.
  destruct H1 as [[_ ->] | [_ ->]], H2 as [[_ H2] | [_ H2]];
    destruct (_load fs (mkPromptStore (Some p) ∅ (JStr "1.0"))) as [[r2 st2] l2];
    by inversion H2.
Qed.

(** X3.  A load from a file that holds a JSON object does not merge: the
    store afterwards is the one a fresh [PromptStore(path)] would hold,
    whatever the store held before and whether or not the load got
    through. *)
Theorem reload_is_fresh_load fs st p top :
  _path st = Some p ->
  fs p = Document (JDict top) ->
  state_of (reload fs st) = new fs (Some p).
Proof.
  intros Hp Hf. unfold reload, new, init. rewrite bind_modify.
  change (set_path (Some p) empty) with (mkPromptStore (Some p) ∅ (JStr "1.0")).
  by apply (load_object_forgets fs st p top).
Qed.

Lemma reload_is_fresh_load_witness :
  state_of (reload (holding "prompts.json" (Document sample_prompts)) sample_store)
  = sample_store.
Proof.
  apply (reload_is_fresh_load (holding "prompts.json" (Document sample_prompts))
           sample_store "prompts.json" sample_top); reflexivity.
Defined.

Lemma load_keeps_path fs st : _path (state_of (_load fs st)) = _path st.
Proof.
  pose proof (load_cases fs st) as H.
  destruct (_path st) as [p|] eqn:Hp; [|by rewrite H].
  destruct (fs p) as [| | |data|]; try by rewrite H.
  destruct data as [| | | | |top]; try by rewrite H.
  destruct (dict_get top "prompts" (JDict [])) as [| | | | |its]; try by rewrite H.
  destruct H as (r & st' & Hrun & H).
  destruct (load_items_outcome its
              (mkPromptStore (Some p) ∅ (dict_get top "version" (JStr "1.0"))))
    as (r' & st'' & Hrun' & _ & Hpath & _).
  rewrite Hrun in Hrun'. inversion Hrun'; subst.
  destruct H as [[_ ->] | [_ ->]]; exact Hpath.
Qed.

(** X4.  Reloading is idempotent: a second [reload] from the same files
    leaves the store that the first one left. *)
Theorem reload_idempotent fs st :
  state_of (reload fs (state_of (reload fs st))) = state_of (reload fs st).
Proof.
  pose proof (load_object_forgets fs) as Hfresh. unfold reload.
  pose proof (load_keeps_path fs st) as Hpath.
  pose proof (load_cases fs (state_of (_load fs st))) as H2.
  pose proof (load_cases fs st) as H1.
  rewrite Hpath in H2.
  destruct (_path st) as [p|] eqn:Hp; [|by rewrite H2].
  destruct (fs p) as [| | |data|] eqn:Hf; try by rewrite H2.
  destruct data as [| | | | |top]; try by rewrite H2.
  rewrite (Hfresh (state_of (_load fs st)) p top);
    [|by rewrite load_keeps_path|exact Hf].
  symmetry. by apply (Hfresh st p top).
Qed.

Lemma load_keeps_keyed fs st : keyed st -> keyed (state_of (_load fs st)).
Proof.
  intros Hst. pose proof (load_cases fs st) as H.
  destruct (_path st) as [p|] eqn:Hp; [|by rewrite H].
  destruct (fs p) as [| | |data|]; try by rewrite H.
  destruct data as [| | | | |top]; try by rewrite H.
  destruct (dict_get top "prompts" (JDict [])) as [| | | | |its];
    try (rewrite H; intros k pr; cbn; by rewrite lookup_empty).
  destruct H as (r & st' & Hrun & H).
  destruct (load_items_outcome its
              (mkPromptStore (Some p) ∅ (dict_get top "version" (JStr "1.0"))))
    as (r' & st'' & Hrun' & _ & _ & _ & Hkey).
  rewrite Hrun in Hrun'. inversion Hrun'; subst.
  assert (keyed st'') by (apply Hkey; intros k pr; cbn; by rewrite lookup_empty).
  by destruct H as [[_ ->] | [_ ->]].
Qed.

Lemma empty_keyed : keyed empty.
Proof. intros k pr. cbn. by rewrite lookup_empty. Qed.

(** X5.  Each record of a store sits under its own key: the invariant
    holds of a new store, with or without a path, and [reload] and [init]
    keep it, whatever the file holds. *)
Theorem loads_keep_records_keyed fs st p q :
  keyed st ->
  keyed (state_of (reload fs st)) /\
  keyed (state_of (init fs p st)) /\
  keyed (new fs q).
Proof.
  intros Hst. split; [|split].
  - by apply load_keeps_keyed.
  - unfold init. rewrite bind_modify. by apply load_keeps_keyed.
  - destruct q as [q|]; [|exact empty_keyed]. unfold new, init. rewrite bind_modify.
    apply load_keeps_keyed. exact empty_keyed.
Qed.

Lemma loads_keep_records_keyed_witness :
  keyed (state_of (init (holding "prompts.json" (Document sample_prompts)) "prompts.json"
                        empty)) /\
  keyed sample_store.
Proof.
  destruct (loads_keep_records_keyed (holding "prompts.json" (Document sample_prompts))
              empty "prompts.json" (Some "prompts.json")) as (_ & Hinit & Hnew).
  - intros k pr. cbn. by rewrite lookup_empty.
  - split; [exact Hinit | exact Hnew].
Defined.

(** X6.  A load of a well-formed file replaces the mapping: a key that is
    not in the file is not in the store afterwards, whatever the store
    held, and the store has as many prompts as the file has distinct
    keys. *)
Theorem load_replaces_mapping fs st p top objs :
  _path st = Some p ->
  fs p = Document (JDict top) ->
  dict_get top "prompts" (JDict []) = JDict (objects objs) ->
  (forall k, k ∉ objs.*1 -> get (state_of (_load fs st)) k = None) /\
  len (state_of (_load fs st)) = length (remove_dups objs.*1).
Proof.
  intros Hp Hf Hobjs. rewrite (load_well_formed fs st p top objs Hp Hf Hobjs).
  unfold get, len, state_of. cbn [fst snd _prompts]. split.
  - intros k Hk. by rewrite insert_all_lookup_notin, lookup_empty.
  - rewrite <- length_map_to_list, <- (length_fmap fst).
    apply Permutation_length, NoDup_Permutation.
    + apply NoDup_fst_map_to_list.
    + apply NoDup_remove_dups.
    + intros k. rewrite elem_of_remove_dups, list_elem_of_fmap. split.
      * intros [[k' pr] [-> Hin]]. apply elem_of_map_to_list in Hin.
        assert (Hsome : is_Some (insert_all objs ∅ !! k')) by eauto.
        apply insert_all_dom in Hsome as [Hk | [? Hk]]; [exact Hk|].
        by rewrite lookup_empty in Hk.
      * intros Hk.
        destruct (proj2 (insert_all_dom objs ∅ k) (or_introl Hk)) as [pr Hpr].
        exists (k, pr). split; [reflexivity | by apply elem_of_map_to_list].
Qed.

Lemma load_replaces_mapping_witness :
  get (state_of (_load (holding "prompts.json"
                          (Document (JDict [("prompts", JDict (objects []))])))
                       sample_store)) "greeting" = None.
Proof.
  apply (load_replaces_mapping
           (holding "prompts.json" (Document (JDict [("prompts", JDict (objects []))])))
           sample_store "prompts.json" [("prompts", JDict (objects []))] []);
    [reflexivity | reflexivity | reflexivity |].
  apply not_elem_of_nil.
Defined.

End StoreExtra.

(** * More on [Prompt.format] *)

Module FormatExtra.

Import Str FormatSpec FormatProps FormatInv.

Lemma emit_raises c o e : emit c o = Raises e -> o = Raises e.
Proof. destruct o; cbn; congruence. Qed.

Lemma emit_string_raises v o e : emit_string v o = Raises e -> o = Raises e.
Proof. destruct o; cbn; congruence. Qed.

Lemma get_field_raises kwargs name e :
  get_field kwargs name = LookupRaises e -> format_exn e = true.
Proof.
  unfold get_field.
  destruct (exists_char (Ascii.eqb ".") name); [discriminate|].
  destruct name as [|c name]; [intros [= <-]; reflexivity|].
  destruct (forall_chars is_digit (String c name)).
  { destruct (decimal 0 (String c name) <=? PY_SSIZE_T_MAX)%Z;
      intros [= <-]; reflexivity. }
  destruct (forall_chars (fun c => is_digit c || negb (is_ascii c)) (String c name));
    [discriminate|].
  destruct (assoc (String c name) kwargs); [discriminate|]. intros [= <-]. reflexivity.
Qed.

(** The scanner raises nothing but [ValueError], [IndexError] and
    [KeyError]. *)
Lemma vformat_raises kwargs n :
  forall s field e,
    (String.length s <= n)%nat ->
    vformat kwargs field s = Raises e -> format_exn e = true.
Proof.
  induction n as [|n IH]; intros s field e Hlen.
  - destruct s as [|c s]; [|cbn in Hlen; lia].
    destruct field; cbn; [intros [= <-]; reflexivity | discriminate].
  - destruct s as [|c s].
    { destruct field; cbn; [intros [= <-]; reflexivity | discriminate]. }
    cbn [String.length] in Hlen.
    destruct field as [name|]; cbn [vformat].
    + destruct (Ascii.eqb c rbrace).
      { destruct (get_field kwargs name) as [v|e'|] eqn:Hf.
        - intros Hr. apply emit_string_raises in Hr. apply (IH s None e); [lia | exact Hr].
        - intros [= <-]. by apply (get_field_raises kwargs name).
        - discriminate. }
      destruct (Ascii.eqb c lbrace); [intros [= <-]; reflexivity|].
      destruct (Ascii.eqb c "[" || Ascii.eqb c ":" || Ascii.eqb c "!"); [discriminate|].
      apply IH. lia.
    + destruct (Ascii.eqb c lbrace).
      { destruct s as [|c2 s]; [intros [= <-]; reflexivity|].
        cbn [String.length] in Hlen.
        destruct (Ascii.eqb c2 lbrace).
        - intros Hr. apply emit_raises in Hr. apply (IH s None e); [lia | exact Hr].
        - apply IH. cbn [String.length]. lia. }
      destruct (Ascii.eqb c rbrace).
      { destruct s as [|c2 s]; [intros [= <-]; reflexivity|].
        cbn [String.length] in Hlen.
        destruct (Ascii.eqb c2 rbrace); [|intros [= <-]; reflexivity].
        intros Hr. apply emit_raises in Hr. apply (IH s None e); [lia | exact Hr]. }
      intros Hr. apply emit_raises in Hr. apply (IH s None e); [lia | exact Hr].
Qed.

(** X22.  On a prompt whose text is a string in which every replacement
    field does no more than name an argument (the part of [str.format]
    that is modelled), [Prompt.format] returns a string or raises
    [ValueError] or [IndexError]; a [KeyError] never reaches the caller,
    and the store is not changed. *)
Theorem format_outcomes (S : Type) (st : S) p s kwargs :
  text p = JStr s ->
  (kwargs <> [] -> Str.format s kwargs <> Unmodelled) ->
  ((exists r, result_of (Prompt_format p kwargs st) = Returns (JStr r)) \/
   result_of (Prompt_format p kwargs st) = Raises ValueError \/
   result_of (Prompt_format p kwargs st) = Raises IndexError) /\
  state_of (Prompt_format p kwargs st) = st.
Proof.
  intros Htext Hin. unfold Prompt_format. rewrite Htext.
  destruct kwargs as [|kv kwargs]; [cbn; eauto|].
  specialize (Hin ltac:(done)). cbn [str_format]. unfold format in *.
  destruct (vformat (kv :: kwargs) None s) as [r|e|] eqn:Hv;
    [cbn; eauto 6| |by destruct Hin].
  pose proof (vformat_raises (kv :: kwargs) (String.length s) s None e (le_n _) Hv) as He.
  destruct e; try discriminate He; cbn; eauto 6.
Qed.

Lemma format_outcomes_witness :
  (exists r, result_of (Prompt_format welcome [("name", "Alice")] tt) = Returns (JStr r)) \/
  result_of (Prompt_format welcome [("name", "Alice")] tt) = Raises ValueError \/
  result_of (Prompt_format welcome [("name", "Alice")] tt) = Raises IndexError.
Proof.
  refine (proj1 (format_outcomes unit tt welcome "Hello {name}, welcome to {app}!"
                   [("name", "Alice")] eq_refl _)).
  intros _. vm_compute. discriminate.
Defined.

(** X23.  A text without braces is returned as it is, whatever keyword
    arguments are given, and nothing is logged. *)
Theorem format_without_braces (S : Type) (st : S) p s kwargs :
  text p = JStr s ->
  brace_free s = true ->
  Prompt_format p kwargs st = (Returns (JStr s), st, []).
Proof.
  intros Htext Hfree. unfold Prompt_format. rewrite Htext.
  destruct kwargs as [|kv kwargs]; [reflexivity|].
  cbn [str_format]. unfold format.
  assert (Hv : vformat (kv :: kwargs) None s = Returns s).
  { pose proof (vformat_literal (kv :: kwargs) s "" Hfree) as Hv.
    rewrite append_nil_r in Hv. rewrite Hv. cbn [vformat emit_string].
    by rewrite append_nil_r. }
  by rewrite Hv.
Qed.

Lemma format_without_braces_witness :
  Prompt_format (mkPrompt "plain" (JStr "Summarise the text.") (JList []) (JStr "test")
                          (JStr ""))
                [("name", "Alice")] tt
  = (Returns (JStr "Summarise the text."), tt, []).
Proof.
  apply (format_without_braces unit tt _ "Summarise the text." [("name", "Alice")]);
    reflexivity.
Defined.

End FormatExtra.

(** * Further properties of the usage store *)

Module ObserverExtra.

Import Observer ObserverSpec ObserverProps ObserverInv ObserverRuns.

(** X7.  The table is append-only and keeps its primary key: [log] adds at
    most one row after the rows that are there, changes nothing when it
    raises, and never gives two rows the same id. *)
Theorem log_appends_and_keeps_ids_unique json_dumps e st :
  usage st `prefix_of` usage (state_of (log_entry json_dumps e st)) /\
  (length (usage (state_of (log_entry json_dumps e st))) <= S (length (usage st)))%nat /\
  ((exists x, result_of (log_entry json_dumps e st) = Raises x) ->
   state_of (log_entry json_dumps e st) = st) /\
  (unique_ids st -> unique_ids (state_of (log_entry json_dumps e st))).
Proof.
  destruct (log_entry_cases json_dumps e st)
    as [(x & -> & _) | (s & _ & _ & Hfresh & ->)]; cbn.
  { by repeat split; auto. }
  split; [by apply prefix_app_r|]. split; [rewrite length_app; cbn; lia|].
  split; [intros [x Hx]; discriminate|].
  unfold unique_ids. cbn. rewrite map_app. cbn. intros Hnd.
  apply NoDup_app. split; [exact Hnd|]. split; [|apply NoDup_singleton].
  intros i Hi Hi'. apply list_elem_of_singleton in Hi'. subst. by apply Hfresh.
Qed.

Lemma log_appends_and_keeps_ids_unique_witness :
  unique_ids five_greetings.
Proof.
  unfold five_greetings, log_all. cbn [fold_left].
  repeat (apply (fun json_dumps e st H =>
                   proj2 (proj2 (proj2
                     (log_appends_and_keeps_ids_unique json_dumps e st))) H)).
  apply NoDup_nil_2.
Defined.

(** X8.  Logging the same entry twice: when the first call succeeds, the
    second raises [IntegrityError] and leaves the table as the first left
    it. *)
Theorem log_twice_raises json_dumps e st :
  result_of (log_entry json_dumps e st) = Returns tt ->
  log_entry json_dumps e (state_of (log_entry json_dumps e st))
  = (Raises IntegrityError, state_of (log_entry json_dumps e st), []).
Proof.
  intros Hfirst.
  destruct (log_entry_cases json_dumps e st)
    as [(x & Hrun & _) | (s & Hs & Hok & _ & Hrun)];
    rewrite Hrun in *; [discriminate|]. cbn [state_of fst snd].
  destruct (log_entry_cases json_dumps e
              (set_usage (usage st ++ [stored json_dumps e]) st))
    as [(x & -> & [[Hbad _] | [Href | (_ & _ & ->)]]) | (_ & _ & _ & Hfresh & _)].
  - cbn in Hbad. congruence.
  - congruence.
  - reflexivity.
  - destruct Hfresh. cbn. rewrite map_app. apply elem_of_app. right. by left.
Qed.

Lemma log_twice_raises_witness :
  result_of (log_entry FacadeSpec.dumps_empty
               (entry "test-0" "2024-01-01T00:00:00" "greeting" true 100)
               (state_of (log_entry FacadeSpec.dumps_empty
                            (entry "test-0" "2024-01-01T00:00:00" "greeting" true 100)
                            FacadeSpec.empty_db)))
  = Raises IntegrityError.
Proof.
  rewrite (log_twice_raises FacadeSpec.dumps_empty
             (entry "test-0" "2024-01-01T00:00:00" "greeting" true 100)
             FacadeSpec.empty_db); reflexivity.
Defined.

Local Open Scope Q_scope.

Lemma get_stats_broken st k :
  db_ok st = false -> get_stats k st = (Raises (db_error st), st, []).
Proof.
  intros Hok. unfold get_stats, connect, Eff.bind, get_state. cbn. by rewrite Hok.
Qed.

(** The result of [get_stats] depends on the rows of the key only. *)
Lemma get_stats_ext k st1 st2 :
  db_ok st1 = db_ok st2 -> db_error st1 = db_error st2 -> sqlite st1 = sqlite st2 ->
  rows_of k st1 = rows_of k st2 ->
  result_of (get_stats k st1) = result_of (get_stats k st2).
Proof.
  intros Hok Herr Heng Hrows. destruct (db_ok st2) eqn:Hok2.
  - rewrite (get_stats_run st1 k Hok), (get_stats_run st2 k Hok2).
    unfold measured_of, succeeded_of. by rewrite Hrows, Heng.
  - rewrite (get_stats_broken st1 k Hok), (get_stats_broken st2 k Hok2).
    cbn. by rewrite Herr.
Qed.

(** X9.  The statistics of a prompt do not depend on the entries of other
    prompts: logging an entry for another key leaves the result of
    [get_stats] as it was. *)
Theorem get_stats_ignores_other_keys json_dumps e st k :
  prompt_key e <> k ->
  result_of (get_stats k (state_of (log_entry json_dumps e st)))
  = result_of (get_stats k st).
Proof.
  intros Hne. apply get_stats_ext;
    destruct (log_entry_cases json_dumps e st)
      as [(x & -> & _) | (s & _ & _ & _ & ->)]; try reflexivity.
  unfold rows_of. cbn [state_of fst snd usage set_usage].
  rewrite List.filter_app. cbn [List.filter].
  replace (String.eqb (r_prompt_key (stored json_dumps e)) k) with false;
    [by rewrite app_nil_r|].
  symmetry. cbn. by apply String.eqb_neq.
Qed.

Lemma get_stats_ignores_other_keys_witness :
  result_of (get_stats "greeting"
               (state_of (log_entry FacadeSpec.dumps_empty
                            (entry "x-1" "2024-01-02T00:00:00" "farewell" false 5)
                            five_greetings)))
  = result_of (get_stats "greeting" five_greetings).
Proof.
  apply (get_stats_ignores_other_keys FacadeSpec.dumps_empty
           (entry "x-1" "2024-01-02T00:00:00" "farewell" false 5) five_greetings "greeting").
  discriminate.
Defined.







Local Close Scope Q_scope.
Local Open Scope nat_scope.

(** *** Counting by groups *)

Lemma total_count_perm {A} (f : A -> nat) l k :
  l ≡ₚ k -> total_count f l = total_count f k.
Proof. unfold total_count. induction 1; cbn; lia. Qed.

Lemma total_count_cons {A} (f : A -> nat) x l :
  total_count f (x :: l) = f x + total_count f l.
Proof. reflexivity. Qed.

Lemma total_count_map {A B} (g : A -> B) (f : B -> nat) l :
  total_count f (map g l) = total_count (fun x => f (g x)) l.
Proof.
  induction l as [|x l IH]; [reflexivity|].
  cbn [map]. by rewrite !total_count_cons, IH.
Qed.

Lemma total_count_zero {A} (f : A -> nat) l :
  (forall x, x ∈ l -> f x = 0) -> total_count f l = 0.
Proof.
  induction l as [|x l IH]; intros H; [reflexivity|].
  rewrite total_count_cons, (H x) by by left.
  rewrite IH; [reflexivity|]. intros y Hy. apply H. by right.
Qed.

Lemma total_count_add {A} (f g : A -> nat) l :
  total_count (fun x => f x + g x) l = total_count f l + total_count g l.
Proof.
  induction l as [|x l IH]; [reflexivity|]. rewrite !total_count_cons, IH. lia.
Qed.

Lemma total_count_indicator a ks :
  NoDup ks -> a ∈ ks ->
  total_count (fun k => if String.eqb a k then 1 else 0) ks = 1.
Proof.
  induction ks as [|k ks IH]; intros Hnd Ha; [by apply elem_of_nil in Ha|].
  apply NoDup_cons in Hnd as [Hk Hnd]. rewrite total_count_cons.
  destruct (String.eqb_spec a k) as [->|Hne].
  - rewrite total_count_zero; [reflexivity|]. intros y Hy.
    destruct (String.eqb_spec k y) as [->|]; [done | reflexivity].
  - apply elem_of_cons in Ha as [Ha|Ha]; [done|]. by rewrite IH.
Qed.

(** The groups of a column partition the rows. *)
Lemma count_partition {A} (f : A -> string) (l : list A) ks :
  NoDup ks -> (forall x, x ∈ l -> f x ∈ ks) ->
  total_count (fun k => length (List.filter (fun x => String.eqb (f x) k) l)) ks
  = length l.
Proof.
  intros Hnd. induction l as [|x l IH]; intros Hin.
  - by apply total_count_zero.
  - transitivity
      (total_count (fun k => (if String.eqb (f x) k then 1 else 0)
                             + length (List.filter (fun y => String.eqb (f y) k) l)) ks).
    { clear. induction ks as [|k ks IH]; [reflexivity|].
      rewrite !total_count_cons, IH. cbn [List.filter].
      by destruct (String.eqb (f x) k). }
    rewrite total_count_add, total_count_indicator, IH; cbn [length]; try done.
    + intros y Hy. apply Hin. by right.
    + apply Hin. by left.
Qed.

Lemma In_length_pos {A} (x : A) l : In x l -> 1 <= length l.
Proof. destruct l; [done | cbn; lia]. Qed.

Lemma distinct_covers {A} (f : A -> string) (l : list A) x :
  x ∈ l -> f x ∈ distinct (map f l).
Proof.
  intros Hx. unfold distinct. rewrite elem_of_remove_dups, list_elem_of_In.
  apply in_map. by apply list_elem_of_In.
Qed.



#[local] Instance recent_newer_first_trans : Transitive recent_newer_first.
Proof. intros a b c Hab Hbc. unfold recent_newer_first in *. by transitivity (rr_timestamp b). Qed.




Lemma sqlite_int_cases n :
  ((- 2 ^ 63 <= n <= 2 ^ 63 - 1)%Z /\ sqlite_int n = Returns n) \/
  ((n < - 2 ^ 63 \/ 2 ^ 63 - 1 < n)%Z /\ sqlite_int n = Raises OverflowError).
Proof.
  unfold sqlite_int.
  destruct (Z.leb_spec (- 2 ^ 63) n), (Z.leb_spec n (2 ^ 63 - 1)); cbn;
    [left | right | right | right]; (split; [lia | reflexivity]).
Qed.


Lemma get_top_prompts_cases st limit :
  get_top_prompts limit st
  = (if db_ok st
     then and_then (sqlite_int limit) (fun n =>
            Returns (sql_limit n
                       (order_groups (sqlite st) (TopPrompts n)
                          (map (aggregate (sqlite st) (TopPrompts n) (usage st))
                               (distinct (map r_prompt_key (usage st)))))))
     else Raises (db_error st), st, []).
Proof.
  unfold get_top_prompts, connect, Eff.bind, get_state, lift, ret. cbn.
  destruct (db_ok st); cbn; [|reflexivity].
  by destruct (sqlite_int limit) as [n| |].
Qed.




Lemma aggregate_counts eng q rows k :
  k ∈ map r_prompt_key rows ->
  1 <= usage_count (aggregate eng q rows k) /\
  success_count (aggregate eng q rows k) <= usage_count (aggregate eng q rows k).
Proof.
  intros Hk. cbn [aggregate usage_count success_count]. unfold sql_count. split.
  - apply list_elem_of_In, in_map_iff in Hk as (r & <- & Hr).
    apply (In_length_pos r), filter_In. split; [exact Hr|].
    unfold with_key. apply String.eqb_refl.
  - apply filter_length_le.
Qed.

(** X16.  Every aggregate of [get_top_prompts] counts at least one use and
    no more successes than uses; and when the limit does not truncate
    (it is negative, or not below the number of prompt keys), there is one
    aggregate for each key and the usage counts add up to the number of
    rows. *)
Theorem get_top_prompts_counts st limit :
  db_ok st = true ->
  (- 2 ^ 63 <= limit <= 2 ^ 63 - 1)%Z ->
  exists top,
    get_top_prompts limit st = (Returns top, st, []) /\
    (forall g, g ∈ top ->
       1 <= usage_count g /\ success_count g <= usage_count g) /\
    ((limit < 0)%Z \/
     (Z.of_nat (length (distinct (map r_prompt_key (usage st)))) <= limit)%Z ->
     length top = length (distinct (map r_prompt_key (usage st))) /\
     total_count usage_count top = length (usage st)).
Proof.
  intros Hok Hlimit. rewrite get_top_prompts_cases, Hok.
  destruct (sqlite_int_cases limit) as [[_ ->] | [Hout _]]; [|lia]. cbn [and_then].
  set (groups := map (aggregate (sqlite st) (TopPrompts limit) (usage st))
                     (distinct (map r_prompt_key (usage st)))).
  eexists. split; [reflexivity|].
  destruct (order_groups_sorts (sqlite st) (TopPrompts limit) groups) as [Hperm _].
  assert (Hlen : length (order_groups (sqlite st) (TopPrompts limit) groups)
                 = length (distinct (map r_prompt_key (usage st)))).
  { rewrite (Permutation_length Hperm). unfold groups. by rewrite length_map. }
  split.
  - intros g Hg.
    assert (Hg' : g ∈ order_groups (sqlite st) (TopPrompts limit) groups).
    { unfold sql_limit in Hg. destruct (limit <? 0)%Z; [exact Hg|].
      by apply (subseteq_take (Z.to_nat limit)). }
    rewrite Hperm in Hg'. unfold groups in Hg'.
    apply list_elem_of_In, in_map_iff in Hg' as (k & <- & Hk).
    apply list_elem_of_In in Hk. unfold distinct in Hk. rewrite elem_of_remove_dups in Hk.
    by apply aggregate_counts.
  - intros Hall.
    assert (Hfull : sql_limit limit (order_groups (sqlite st) (TopPrompts limit) groups)
                    = order_groups (sqlite st) (TopPrompts limit) groups).
    { unfold sql_limit. destruct (Z.ltb_spec limit 0); [reflexivity|].
      apply take_ge. rewrite Hlen. lia. }
    rewrite Hfull. split; [exact Hlen|].
    rewrite (total_count_perm _ _ _ Hperm). unfold groups.
    rewrite total_count_map. cbn [aggregate usage_count]. unfold sql_count, with_key.
    apply count_partition; [apply NoDup_remove_dups|].
    intros r Hr. by apply distinct_covers.
Qed.

Lemma get_top_prompts_counts_witness :
  exists top,
    get_top_prompts (-1) three_two_one = (Returns top, three_two_one, []) /\
    length top = 3 /\ total_count usage_count top = 6.
Proof.
  destruct (get_top_prompts_counts three_two_one (-1) eq_refl ltac:(lia))
    as (top & Hrun & _ & Hall).
  destruct Hall as [Hlen Hsum]; [left; lia|].
  exists top. split; [exact Hrun|]. split; [rewrite Hlen | rewrite Hsum]; reflexivity.
Defined.

End ObserverExtra.

(** * More on the functions of the two modules *)

Module FacadeExtra.

Import Observer Facade FacadeSpec FacadeProps ObserverSpec ObserverInv ObserverRuns
  ObserverProps ObserverExtra FacadeInv StoreProps StoreExtra EffProps.

(** X17.  [_hash_prompt] of a string UTF-8 can encode is a string of
    twelve hexadecimal digits, the beginning of the SHA-256 digest of the
    string; on a string that holds a lone surrogate it raises
    [UnicodeEncodeError]. *)
Theorem hash_prompt_shape t :
  (Str.has_surrogate t = false ->
   exists h,
     _hash_prompt (JStr t) = Returns h /\
     h = String.substring 0 12 (SHA256.hexdigest t) /\
     String.length h = 12%nat /\
     Str.forall_chars is_hex h = true) /\
  (Str.has_surrogate t = true -> _hash_prompt (JStr t) = Raises UnicodeEncodeError).
Proof.
  cbn [_hash_prompt]. split; intros ->; [|reflexivity].
  eexists. split; [reflexivity|]. split; [reflexivity|]. apply short_hash_hex.
Qed.

Lemma hash_prompt_shape_witness :
  _hash_prompt (JStr "Hello {name}!") = Returns "87566760931a" /\
  _hash_prompt (JStr lone_surrogate) = Raises UnicodeEncodeError.
Proof.
  split.
  - destruct (proj1 (hash_prompt_shape "Hello {name}!") eq_refl) as (h & -> & -> & _).
    vm_compute. reflexivity.
  - apply (proj2 (hash_prompt_shape lone_surrogate)). reflexivity.
Defined.



(** X19.  When the insertion fails, because the database cannot be used or
    because the id is already in the table, [log_usage] still returns the
    id, leaves the rows as they were and writes a warning. *)
Theorem failed_insert_keeps_rows json_dumps env w k stg pt mdl ses vars ok lat nts u h :
  usage_store_of w = Some u ->
  db_ok u = false \/ uuid4 env ∈ map r_id (usage u) ->
  resolve_hash (effective_text w k pt) = Returns h ->
  exists w' logs,
    log_usage json_dumps env k stg pt mdl ses vars ok lat nts w
    = (Returns (uuid4 env), w', logs) /\
    usage_rows w' = Some (usage u) /\
    In failed logs /\ ~ In logged logs.
Proof.
  intros Hu Hfail Hh.
  destruct (log_usage_run json_dumps env w k stg pt mdl ses vars ok lat nts h Hh)
    as (w' & logs & Hrun & Hstore & Hlogged & Hfailed).
  rewrite Hu in Hstore.
  destruct (log_entry_fails json_dumps (built env k h stg mdl ses vars ok lat nts) u Hfail)
    as [x Hlog].
  assert (Hno : ~ (persisted json_dumps w (built env k h stg mdl ses vars ok lat nts)
                   /\ forward env = None)).
  { intros [(u' & Hu' & Hres) _]. rewrite Hu in Hu'. injection Hu' as <-.
    rewrite Hlog in Hres. discriminate Hres. }
  exists w', logs. split; [exact Hrun|]. unfold usage_rows. rewrite Hstore, Hlog.
  split; [reflexivity|]. split; [by apply Hfailed | by rewrite Hlogged].
Qed.

Lemma failed_insert_keeps_rows_witness :
  exists w' logs,
    log_usage dumps_empty sample_env "greeting" "chat" None (Some "gpt-4") None None
              true 150 None sample_world
    = (Returns "0b5b2c4e-7f0a-4e0e-9d39-0c1f5a3e8a11", w', logs) /\
    usage_rows w' = Some [] /\
    In failed logs /\ ~ In logged logs.
Proof.
  apply (failed_insert_keeps_rows dumps_empty sample_env sample_world "greeting" "chat" None
           (Some "gpt-4") None None true 150%Q None broken_db "87566760931a").
  - reflexivity.
  - left. reflexivity.
  - vm_compute. reflexivity.
Defined.






(** [get_store] returns the global store, which it creates empty when
    there is none. *)
Lemma get_store_run w :
  exists w',
    get_store w = (Returns (default PromptStore_.empty (_store w)), w', []) /\
    _store w' = Some (default PromptStore_.empty (_store w)).
Proof.
  unfold get_store. rewrite bind_get_state.
  destruct (_store w) as [st|] eqn:Hst; cbn [default].
  - exists w. split; [reflexivity | exact Hst].
  - rewrite bind_modify. eexists. split; reflexivity.
Qed.



(** X24.  The functions of the module agree on what is in the store:
    [has_prompt] says yes exactly for the keys [list_prompts] lists, the
    list is sorted and has no key twice, and for every other key
    [get_prompt] returns the empty string, whatever the keyword arguments,
    with a warning. *)
Theorem lookups_agree w k kwargs :
  exists b l,
    result_of (has_prompt k w) = Returns b /\
    result_of (list_prompts w) = Returns l /\
    (b = true <-> k ∈ l) /\
    StronglySorted String.le l /\ NoDup l /\
    (b = false ->
     result_of (get_prompt k kwargs w) = Returns (JStr "") /\
     logs_of (get_prompt k kwargs w) = [(WARNING, "Prompt not found")]).
Proof.
  destruct (get_store_run w) as (w' & Hrun & _).
  set (st := default PromptStore_.empty (_store w)) in *.
  exists (PromptStore_.has st k), (PromptStore_.list_keys st).
  unfold has_prompt, list_prompts, get_prompt, Eff.bind. rewrite Hrun.
  cbn [ret result_of fst].
  split; [reflexivity|]. split; [reflexivity|]. split; [|split; [|split]].
  - rewrite elem_of_list_keys. unfold PromptStore_.has. by rewrite bool_decide_eq_true.
  - apply list_keys_sorted.
  - apply list_keys_NoDup.
  - unfold PromptStore_.has, PromptStore_.get. intros Hno.
    apply bool_decide_eq_false in Hno.
    destruct (_prompts st !! k) as [p|] eqn:Hp; [by destruct Hno; eauto|].
    split; reflexivity.
Qed.

(** X25.  [init_store] makes a new store: on a path at which there is no
    file, the prompts of the store that was active are gone, and the
    module answers as for an empty store. *)
Theorem init_store_on_missing_file w path k kwargs :
  files w path = Absent ->
  let w' := state_of (init_store path w) in
  result_of (list_prompts w') = Returns [] /\
  result_of (has_prompt k w') = Returns false /\
  result_of (get_prompt k kwargs w') = Returns (JStr "") /\
  logs_of (init_store path w) = [(WARNING, "Prompts file not found")].
Proof.
  intros Habsent w'.
  assert (Hinit : PromptStore_.init (files w) path PromptStore_.empty
                  = (Returns tt, set_path (Some path) PromptStore_.empty,
                     [(WARNING, "Prompts file not found")])).
  { unfold PromptStore_.init. rewrite bind_modify. unfold PromptStore_._load.
    rewrite bind_get_state. cbn [_path set_path]. by rewrite Habsent. }
  assert (Hstore : _store w' = Some (set_path (Some path) PromptStore_.empty)).
  { unfold w', init_store. rewrite Hinit. reflexivity. }
  destruct (get_store_run w') as (w2 & Hrun & _). rewrite Hstore in Hrun. cbn [default] in Hrun.
  unfold list_prompts, has_prompt, get_prompt, Eff.bind. rewrite Hrun.
  split; [reflexivity|]. split; [reflexivity|]. split; [reflexivity|].
  unfold init_store. by rewrite Hinit.
Qed.

Lemma init_store_on_missing_file_witness :
  result_of (list_prompts (state_of (init_store "missing.json" logging_world))) = Returns [] /\
  result_of (has_prompt "greeting" (state_of (init_store "missing.json" logging_world)))
  = Returns false.
Proof.
  destruct (init_store_on_missing_file logging_world "missing.json" "greeting" [] eq_refl)
    as (Hlist & Hhas & _).
  split; [exact Hlist | exact Hhas].
Defined.

End FacadeExtra.

(** * The commands *)

Module CliExtra.

Import PromptStore_ StoreSpec StoreProps StoreInv StoreExtra Facade Cli CliSpec ObserverInv
  EffProps.

(** *** [validate] *)

Lemma objects_as_objects its :
  Forall (fun kv => exists d, kv.2 = JDict d) its -> objects (as_objects its) = its.
Proof.
  induction 1 as [|[k v] its [d Hd] _ IH]; [reflexivity|].
  cbn in Hd. subst v. unfold as_objects, objects in *. cbn. by rewrite IH.
Qed.

(** The loop body leaves the errors alone exactly when the prompt is an
    object with a text. *)
Lemma check_prompt_errors key prompt errors warnings errors' warnings' :
  check_prompt key prompt (errors, warnings) = Ok (errors', warnings') ->
  (exists d, prompt = JDict d /\ has_text d = true /\ errors' = errors) \/
  errors' = errors ++ [key +:+ ": Missing 'text' field"].
Proof.
  unfold check_prompt.
  destruct (contains "text" prompt) as [has| |] eqn:Hc; cbn [and_then']; try discriminate.
  destruct has; cbn [negb].
  - destruct prompt as [| | | |l|d]; cbn in Hc |- *; try discriminate.
    injection Hc as Hc.
    destruct (assoc "text" d) as [t|] eqn:Ht; cbn [and_then']; [|discriminate].
    destruct (bool_decide (is_Some (assoc "variables" d))); cbn [andb and_then'].
    + destruct (assoc "variables" d) as [vs|]; cbn [and_then']; [|discriminate].
      destruct (iterate vs) as [vars| |]; cbn [and_then']; try discriminate.
      destruct (check_variables key t vars _) as [ws| |]; cbn [and_then']; try discriminate.
      intros [= <- <-]. left. exists d. unfold has_text. rewrite Ht.
      split; [reflexivity|]. split; [by apply bool_decide_eq_true; eauto | reflexivity].
    + intros [= <- <-]. left. exists d. unfold has_text. rewrite Ht.
      split; [reflexivity|]. split; [by apply bool_decide_eq_true; eauto | reflexivity].
  - cbn [and_then'].
    destruct (contains "variables" prompt) as [hv| |]; cbn [and_then']; try discriminate.
    rewrite andb_false_r. intros [= <- <-]. by right.
Qed.

Lemma check_prompts_no_errors its errors warnings warnings' :
  check_prompts its (errors, warnings) = Ok ([], warnings') ->
  errors = [] /\
  Forall (fun kv => exists d, kv.2 = JDict d /\ has_text d = true) its.
Proof.
  revert errors warnings. induction its as [|[k v] its IH]; intros errors warnings.
  - cbn. intros [= -> _]. split; [reflexivity | constructor].
  - cbn [check_prompts].
    destruct (check_prompt k v (errors, warnings)) as [[errors1 warnings1]| |] eqn:Hp;
      cbn [and_then']; try discriminate.
    intros Hrest. destruct (IH _ _ Hrest) as [-> Hall].
    destruct (check_prompt_errors _ _ _ _ _ _ Hp) as [(d & -> & Hd & Herr) | Herr].
    + split; [by symmetry|]. constructor; [|exact Hall]. exists d. by split.
    + by destruct errors.
Qed.

(** What a document is when [check] finds no error in it. *)
Lemma check_no_errors data warnings :
  check data = Ok ([], warnings) ->
  exists top objs,
    data = JDict top /\
    assoc "prompts" top = Some (JDict (objects objs)) /\
    forallb (fun kd => has_text kd.2) objs = true.
Proof.
  unfold check.
  destruct (contains "prompts" data) as [has| |] eqn:Hc; cbn [and_then']; try discriminate.
  destruct has; cbn [negb]; [|discriminate].
  destruct data as [| | | |l|top]; cbn [subscript and_then']; try discriminate.
  destruct (assoc "prompts" top) as [prompts|] eqn:Hp; cbn [and_then']; [|discriminate].
  destruct prompts as [| | | | |its]; cbn [items of_outcome and_then']; try discriminate.
  intros Hits. apply check_prompts_no_errors in Hits as [_ Hall].
  exists top, (as_objects its). split; [reflexivity|].
  rewrite objects_as_objects.
  - split; [exact Hp|]. apply forallb_forall. intros [k d] Hin.
    unfold as_objects in Hin. apply in_map_iff in Hin as ([k' v] & [= <- <-] & Hin).
    rewrite Forall_forall in Hall. apply list_elem_of_In, Hall in Hin as (d & Hd & Ht).
    cbn in Hd |- *. by rewrite Hd.
  - eapply Forall_impl; [exact Hall|]. intros kv (d & Hd & _). eauto.
Qed.

Lemma validate_finished f path :
  ended (cmd_validate f path) = Finished ->
  exists data warnings, f = Document data /\ check data = Ok ([], warnings).
Proof.
  destruct f as [| | |data|]; cbn; try discriminate.
  destruct (check data) as [[errors warnings]| |] eqn:Hcheck; cbn; try discriminate.
  destruct errors as [|e errors]; [intros _; by eexists _, _|].
  change (is_nil (e :: errors)) with false. cbn [andb ended]. discriminate.
Qed.

(** X26.  A file that [validate] lets through is loaded by the store in
    full: when the command ends without an error exit and without an
    exception, the file holds an object whose prompts are objects with a
    text, [_load] reports success, and the store holds exactly the keys of
    the file. *)
Theorem validated_file_loads fs st path :
  _path st = Some path ->
  ended (cmd_validate (fs path) path) = Finished ->
  exists top objs,
    fs path = Document (JDict top) /\
    assoc "prompts" top = Some (JDict (objects objs)) /\
    forallb (fun kd => has_text kd.2) objs = true /\
    result_of (_load fs st) = Returns tt /\
    logs_of (_load fs st) = [(INFO, "Loaded prompts")] /\
    (forall k, has (state_of (_load fs st)) k = true <-> k ∈ objs.*1).
Proof.
  intros Hpath Hend.
  destruct (validate_finished _ _ Hend) as (data & warnings & Hf & Hcheck).
  destruct (check_no_errors _ _ Hcheck) as (top & objs & -> & Hprompts & Htext).
  exists top, objs. split; [exact Hf|]. split; [exact Hprompts|]. split; [exact Htext|].
  rewrite (load_well_formed fs st path top objs Hpath Hf)
    by (unfold dict_get; by rewrite Hprompts).
  split; [reflexivity|]. split; [reflexivity|].
  intros k. cbn [state_of fst snd]. unfold has. cbn [_prompts].
  rewrite bool_decide_eq_true, insert_all_dom, lookup_empty.
  split; [intros [Hk | [x Hx]]; [exact Hk | discriminate Hx] | by left].
Qed.

Lemma validated_file_loads_witness :
  has (state_of (_load (holding "prompts.json" (Document sample_prompts))
                       (set_path (Some "prompts.json") empty)))
      "greeting" = true.
Proof.
  destruct (validated_file_loads (holding "prompts.json" (Document sample_prompts))
              (set_path (Some "prompts.json") empty) "prompts.json" eq_refl)
    as (top & objs & Hf & Hp & _ & _ & _ & Hkeys).
  - vm_compute. reflexivity.
  - apply Hkeys. cbn in Hf. injection Hf as <-. cbn in Hp. injection Hp as Hp.
    assert (Hfst : (objects objs).*1 = objs.*1).
    { unfold objects. rewrite <- list_fmap_compose. reflexivity. }
    rewrite <- Hfst, <- Hp. cbn. apply elem_of_cons. by left.
Defined.

Lemma check_variables_typed key s vars warnings :
  forallb is_str vars = true ->
  check_variables key (JStr s) vars warnings
  = Ok (warnings
        ++ map (fun x => key +:+ ": Variable '" +:+ x +:+ "' not used in text")
               (unused s vars)).
Proof.
  revert warnings. induction vars as [|v vars IH]; intros warnings Hstr.
  - cbn. by rewrite app_nil_r.
  - cbn [forallb] in Hstr. apply andb_prop in Hstr as [Hv Hstr].
    destruct v as [| | |x| |]; try discriminate Hv.
    cbn [check_variables contains and_then']. rewrite IH by exact Hstr.
    cbn [unused flat_map]. fold (unused s vars).
    destruct (is_substring (Str.braced x) s); cbn [app map]; [reflexivity|].
    by rewrite <- app_assoc.
Qed.

(** On a typed prompt object the loop body appends what [missing_text] and
    [warnings_of] say. *)
Lemma check_prompt_typed key d errors warnings :
  typed d = true ->
  check_prompt key (JDict d) (errors, warnings)
  = Ok (errors ++ (if has_text d then [] else [key +:+ ": Missing 'text' field"]),
        warnings ++ warnings_of key d).
Proof.
  unfold typed, check_prompt, has_text, warnings_of. cbn [contains and_then' subscript].
  destruct (assoc "text" d) as [t|] eqn:Ht.
  - rewrite bool_decide_true by eauto. cbn [negb and_then' andb].
    destruct t as [| | |s| |]; try discriminate.
    cbn [truthy andb].
    destruct (assoc "variables" d) as [vs|] eqn:Hv.
    + rewrite bool_decide_true by eauto. cbn [andb and_then'].
      destruct vs as [| | | |vars|]; try discriminate.
      intros Hvars. cbn [iterate and_then'].
      rewrite check_variables_typed by exact Hvars. cbn [and_then'].
      rewrite app_nil_r. destruct (String.eqb s ""); cbn [negb app]; by rewrite <- ?app_assoc.
    + intros _. rewrite bool_decide_false by (intros [? ?]; discriminate).
      cbn [andb and_then']. rewrite !app_nil_r.
      by destruct (String.eqb s ""); cbn [negb]; rewrite ?app_nil_r.
  - rewrite bool_decide_false by (intros [? ?]; discriminate). cbn [negb and_then' andb].
    intros _. rewrite andb_false_r, app_nil_r.
    by destruct (bool_decide (is_Some (assoc "variables" d))).
Qed.

Lemma check_prompts_typed objs errors warnings :
  forallb (fun kd => typed kd.2) objs = true ->
  check_prompts (objects objs) (errors, warnings)
  = Ok (errors ++ missing_text objs, warnings ++ all_warnings objs).
Proof.
  revert errors warnings. induction objs as [|[k d] objs IH]; intros errors warnings Hty.
  - cbn. by rewrite !app_nil_r.
  - cbn [forallb] in Hty. apply andb_prop in Hty as [Hd Hty]. cbn [snd] in Hd.
    cbn [objects map fst snd check_prompts]. rewrite check_prompt_typed by exact Hd.
    cbn [and_then']. fold (objects objs). rewrite IH by exact Hty.
    unfold missing_text, all_warnings. cbn [List.filter flat_map fst snd].
    destruct (has_text d); cbn [negb map app]; by rewrite <- ?app_assoc, ?app_nil_r.
Qed.

Lemma check_typed top objs :
  assoc "prompts" top = Some (JDict (objects objs)) ->
  forallb (fun kd => typed kd.2) objs = true ->
  check (JDict top) = Ok (missing_text objs, all_warnings objs).
Proof.
  intros Hp Hty. unfold check. cbn [contains subscript and_then'].
  rewrite Hp. rewrite bool_decide_true by eauto.
  cbn [negb and_then' items of_outcome]. by rewrite check_prompts_typed.
Qed.



Lemma clean_typed d : clean d = true -> typed d = true.
Proof.
  unfold clean, typed. destruct (assoc "text" d) as [[| | |s| |]|]; try discriminate.
  intros H. apply andb_prop in H as [_ H]. cbn [andb].
  destruct (assoc "variables" d) as [[| | | |vars|]|]; try discriminate; [|reflexivity].
  apply forallb_forall. intros v Hv. rewrite forallb_forall in H. apply H in Hv.
  by destruct v.
Qed.

Lemma unused_nil s vars :
  forallb is_str vars = true ->
  unused s vars = []
  <-> forallb (fun v => match v with
                        | JStr x => is_substring (Str.braced x) s
                        | _ => false
                        end) vars = true.
Proof.
  induction vars as [|v vars IH]; [done|]. cbn [forallb unused flat_map].
  fold (unused s vars). intros Hstr. apply andb_prop in Hstr as [Hv Hstr].
  destruct v as [| | |x| |]; try discriminate Hv.
  destruct (is_substring (Str.braced x) s); cbn [andb app].
  - by apply IH.
  - split; discriminate.
Qed.

(** A typed prompt is clean exactly when [validate] has nothing to say
    about it. *)
Lemma clean_iff d key :
  typed d = true ->
  clean d = true <-> has_text d = true /\ warnings_of key d = [].
Proof.
  unfold typed, clean, has_text, warnings_of.
  destruct (assoc "text" d) as [t|] eqn:Ht.
  - rewrite bool_decide_true by eauto. destruct t as [| | |s| |]; try discriminate.
    cbn [andb]. intros Hvars.
    destruct (String.eqb s ""); cbn [negb andb app].
    { split; [discriminate | intros [_ Hc]; discriminate]. }
    destruct (assoc "variables" d) as [[| | | |vars|]|]; try discriminate.
    + rewrite <- (unused_nil s vars Hvars). split.
      * intros ->. by split.
      * intros [_ Hm]. by destruct (unused s vars).
    + by split.
  - intros _. rewrite bool_decide_false by (intros [? ?]; discriminate).
    split; [discriminate | intros [Hc _]; discriminate].
Qed.

Lemma bullets_plain title l x : x ∈ bullets title l -> exists s, x = Plain s.
Proof.
  destruct l as [|m l]; [intros Hx; by apply elem_of_nil in Hx|].
  unfold bullets. intros Hx. apply elem_of_cons in Hx as [-> | Hx]; [eauto|].
  apply list_elem_of_In, in_map_iff in Hx as (s & <- & _). eauto.
Qed.

(** X28.  On such a file the command prints that the file is valid, with
    the number of its prompts, exactly when every prompt is clean: its
    text is not empty and each of its variables stands in the text between
    braces.  Then that line is all it prints. *)
Theorem valid_exactly_when_clean path top objs :
  assoc "prompts" top = Some (JDict (objects objs)) ->
  forallb (fun kd => typed kd.2) objs = true ->
  (forallb (fun kd => clean kd.2) objs = true ->
   cmd_validate (Document (JDict top)) path = mkRun [ValidCount (length objs)] [] Finished) /\
  (forall n, ValidCount n ∈ stdout (cmd_validate (Document (JDict top)) path) ->
             forallb (fun kd => clean kd.2) objs = true).
Proof.
  intros Hp Hty. pose proof (check_typed top objs Hp Hty) as Hcheck.
  assert (Hclean : forallb (fun kd => clean kd.2) objs = true
                   <-> missing_text objs = [] /\ all_warnings objs = []).
  { clear Hp Hcheck. unfold missing_text, all_warnings.
    induction objs as [|[k d] objs IH]; [done|].
    cbn [forallb] in Hty. apply andb_prop in Hty as [Hd Hty]. cbn [snd] in Hd.
    cbn [forallb List.filter flat_map fst snd]. rewrite andb_true_iff, (IH Hty).
    rewrite (clean_iff d k Hd). destruct (has_text d); cbn [negb map].
    - split.
      + intros [[_ ->] [-> ->]]. by split.
      + intros [-> Hw]. apply app_eq_nil in Hw as [-> ->]. by repeat split.
    - split; [intros [[Hc _] _]; discriminate | intros [Hc _]; discriminate]. }
  assert (Hlen : length (objects objs) = length objs) by (unfold objects; apply length_map).
  unfold cmd_validate. rewrite Hcheck. cbn [Py.get of_outcome and_then'].
  unfold dict_get. rewrite Hp. cbn [py_len]. split.
  - intros Hall. apply Hclean in Hall as [-> ->]. cbn. by rewrite Hlen.
  - intros n. destruct (missing_text objs) as [|e errors] eqn:Herr.
    + destruct (all_warnings objs) as [|x warnings] eqn:Hw;
        [intros _; by apply Hclean|].
      cbn [is_nil andb stdout]. intros Hin. apply elem_of_app in Hin as [Hin | Hin];
        apply bullets_plain in Hin as [s Hs]; discriminate Hs.
    + cbn [is_nil andb stdout]. intros Hin. apply elem_of_app in Hin as [Hin | Hin];
        apply bullets_plain in Hin as [s Hs]; discriminate Hs.
Qed.

Lemma valid_exactly_when_clean_witness :
  cmd_validate (Document sample_prompts) "prompts.json"
  = mkRun [ValidCount 2] [] Finished.
Proof.
  apply (proj1 (valid_exactly_when_clean "prompts.json" sample_top sample_objects
                  eq_refl eq_refl)).
  reflexivity.
Defined.

(** *** [list] *)


















(** *** [export] *)






End CliExtra.
